(** * Speaker attribution and the chunk pipeline of app.py

    A shallow embedding of [detect_speaker], [reset_speakers],
    [get_voice_embedding], [load_models] and [transcribe_audio], with the
    global dictionary [speaker_embeddings] and the pointer
    [current_speaker] threaded as an explicit state.

    numpy (dot, norm, mean, scalar arithmetic and comparisons) and the two
    models (faster-whisper, Resemblyzer) are library code: the embedding
    takes them as an interface, and [Binary64] implements the numeric one
    with IEEE double precision floats so that every definition runs. *)

From Stdlib Require Import List String Ascii Arith Bool Lia NArith ZArith.
From Stdlib Require Import PrimFloat SpecFloat FloatOps FloatAxioms.
#[local] Set Warnings "-stdlib-vector".
From Stdlib Require Vector.
Import ListNotations.

(** ** Python values *)

(** Exceptions that the modelled code can raise or catch. *)
Inductive exn : Type :=
| KeyError (key : string)
| ValueError (msg : string)
| AttributeError (msg : string)
| Failure (msg : string).

(** [str(e)] *)
Definition exn_str (e : exn) : string :=
  match e with
  | KeyError k => k
  | ValueError m => m
  | AttributeError m => m
  | Failure m => m
  end.

Inductive result (A : Type) : Type :=
| Ret (a : A)
| Raise (e : exn).

Arguments Ret {A} a.
Arguments Raise {A} e.

(** [ord] and [chr] on the code points a [string] of this file can hold.
    [chr] raises ValueError from 0x110000 on; below 128 the character is
    the ASCII one. The label minted by [detect_speaker] is only used when
    fewer than ten speakers exist, so it is one of "A" .. "J". *)
Definition py_ord (c : ascii) : nat := nat_of_ascii c.

Definition py_chr (n : nat) : result string :=
  if (N.of_nat n <? 1114112)%N
  then Ret (String (ascii_of_nat n) EmptyString)
  else Raise (ValueError "chr() arg not in range(0x110000)").

(** ** Dictionaries

    A Python [dict] keeps its keys in insertion order, and the loop of
    [detect_speaker] iterates in that order: an association list, in which
    [d[k] = v] replaces in place when [k] is present and appends when not. *)
Definition dict (V : Type) : Type := list (string * V).

Fixpoint dict_get {V : Type} (k : string) (d : dict V) : option V :=
  match d with
  | [] => None
  | (k', v) :: d' => if String.eqb k k' then Some v else dict_get k d'
  end.

Fixpoint dict_set {V : Type} (k : string) (v : V) (d : dict V) : dict V :=
  match d with
  | [] => [(k, v)]
  | (k', v') :: d' =>
      if String.eqb k k' then (k', v) :: d' else (k', v') :: dict_set k v d'
  end.

Definition dict_keys {V : Type} (d : dict V) : list string := map fst d.

(** [len(d)] *)
Definition dict_len {V : Type} (d : dict V) : nat := List.length d.

(** [not d] *)
Definition dict_empty {V : Type} (d : dict V) : bool :=
  match d with [] => true | _ :: _ => false end.

(** ** The numeric interface

    What [detect_speaker] asks of numpy: vectors with [np.dot] and
    [np.linalg.norm], scalars with [*], [/], [>] and [>=], [np.mean] of a
    list of scalars, and the two literals the code compares against.

    [ndarray] is the type of the embeddings of one encoder: arrays of one
    shape [(n,)]. [np.dot] raises ValueError on arrays of different
    lengths; on two arrays of this type it returns a scalar. *)
Class NumPy : Type := {
  ndarray : Type;
  scalar : Type;
  np_dot : ndarray -> ndarray -> scalar;
  np_norm : ndarray -> scalar;
  np_mean : list scalar -> scalar;
  mul : scalar -> scalar -> scalar;
  div : scalar -> scalar -> scalar;
  gt : scalar -> scalar -> bool;
  ge : scalar -> scalar -> bool;
  minus_one : scalar;
  SIMILARITY_THRESHOLD : scalar
}.

(** The literal 10 of lines 155 and 162. *)
Definition MAX_REFERENCE_SAMPLES : nat := 10.
Definition MAX_SPEAKERS : nat := 10.

Section Attributor.

Context {NP : NumPy}.

(** The two globals of the attributor. *)
Record state : Type := mkState {
  speaker_embeddings : dict (list ndarray);
  current_speaker : string
}.

(** Module load: [speaker_embeddings = {}], [current_speaker = "A"]. *)
Definition initial_state : state := mkState [] "A".

(** [np.dot(embedding, emb) / (np.linalg.norm(embedding) * np.linalg.norm(emb))] *)
Definition cosine (embedding emb : ndarray) : scalar :=
  div (np_dot embedding emb) (mul (np_norm embedding) (np_norm emb)).

(** [np.mean([cosine(embedding, emb) for emb in embeddings_list])] *)
Definition avg_similarity (embedding : ndarray) (embeddings_list : list ndarray) : scalar :=
  np_mean (map (cosine embedding) embeddings_list).

(** One iteration of the [for] loop over [speaker_embeddings.items()],
    on the pair ([best_speaker], [best_similarity]). *)
Definition scan_step (embedding : ndarray) (best : option string * scalar)
    (item : string * list ndarray) : option string * scalar :=
  let avg := avg_similarity embedding (snd item) in
  if gt avg (snd best) then (Some (fst item), avg) else best.

(** The whole loop, from [best_speaker = None], [best_similarity = -1]. *)
Definition best_match (embedding : ndarray) (d : dict (list ndarray)) : option string * scalar :=
  fold_left (scan_step embedding) d (None, minus_one).

(** [speaker_embeddings[best_speaker]], which raises KeyError on [None]. *)
Definition getitem (d : dict (list ndarray)) (k : option string) : result (string * list ndarray) :=
  match k with
  | None => Raise (KeyError "None")
  | Some k' =>
      match dict_get k' d with
      | Some refs => Ret (k', refs)
      | None => Raise (KeyError k')
      end
  end.

(** [detect_speaker(embedding)]: the value returned (a label, or Python's
    [None]) or the exception raised, and the globals afterwards. *)
Definition detect_speaker (embedding : option ndarray) (st : state) : result (option string) * state :=
  match embedding with
  | None => (Ret (Some (current_speaker st)), st)
  | Some e =>
      let d := speaker_embeddings st in
      if dict_empty d then
        (Ret (Some "A"%string), mkState (dict_set "A" [e] d) "A")
      else
        let '(best_speaker, best_similarity) := best_match e d in
        if ge best_similarity SIMILARITY_THRESHOLD then
          match getitem d best_speaker with
          | Raise x => (Raise x, st)
          | Ret (k, refs) =>
              let d' := if List.length refs <? 10 then dict_set k (refs ++ [e]) d else d in
              (Ret (Some k), mkState d' k)
          end
        else
          match py_chr (py_ord "A" + dict_len d) with
          | Raise x => (Raise x, st)
          | Ret new_speaker =>
              if dict_len d <? 10 then
                (Ret (Some new_speaker), mkState (dict_set new_speaker [e] d) new_speaker)
              else
                (Ret best_speaker, st)
          end
  end.

(** [reset_speakers()] *)
Definition reset_speakers (st : state) : state := mkState [] "A".

(** A run of [detect_speaker] calls, one per chunk, keeping the globals. *)
Definition attribute_all (embeddings : list (option ndarray)) (st : state) : state :=
  fold_left (fun s e => snd (detect_speaker e s)) embeddings st.

(** The states the process can be in: the globals at module load, after
    any call of [detect_speaker] (also one that raised) and after
    [reset_speakers]. *)
Inductive reachable : state -> Prop :=
| reach_init : reachable initial_state
| reach_attribute (emb : option ndarray) (st : state) :
    reachable st -> reachable (snd (detect_speaker emb st))
| reach_reset (st : state) :
    reachable st -> reachable (reset_speakers st).

(** The label of the speaker seen after [n] others: [chr(ord('A') + n)]. *)
Definition nth_label (n : nat) : string :=
  String (ascii_of_nat (py_ord "A" + n)) EmptyString.

(** The keys are the labels A, B, C, ... in the order of first appearance. *)
Definition labels_in_order (d : dict (list ndarray)) : Prop :=
  dict_keys d = map nth_label (seq 0 (dict_len d)).

(** The invariant of the registry: labels in order of appearance, at most
    MAX_SPEAKERS identities, at most MAX_REFERENCE_SAMPLES embeddings each. *)
Definition registry_ok (d : dict (list ndarray)) : Prop :=
  labels_in_order d /\
  dict_len d <= MAX_SPEAKERS /\
  Forall (fun item => List.length (snd item) <= MAX_REFERENCE_SAMPLES) d.

(** What the comparisons against the two literals need of the scalars:
    a score that reaches the threshold is above the loop's initial
    [best_similarity], and that initial value is below the threshold
    ([-1 >= 0.85] is false). *)
Definition threshold_above_floor : Prop :=
  forall s : scalar, ge s SIMILARITY_THRESHOLD = true -> gt s minus_one = true.

Definition floor_below_threshold : Prop :=
  ge minus_one SIMILARITY_THRESHOLD = false.

(** Scalars that take part in a true comparison are numbers, and two
    numbers are ordered: when [a] is above something, [b] is at least
    something, and [a >= b] is false, then [b > a]. For floats this leaves
    out exactly the NaNs, which every comparison answers with false. *)
Definition scores_ordered : Prop :=
  forall a b c d : scalar,
    gt a c = true -> ge b d = true -> ge a b = false -> gt b a = true.

End Attributor.

(** ** IEEE double precision numpy

    An executable [NumPy] for every dimension [n]: the arrays are the
    vectors of [n] binary64 floats, so that [np.dot] is only ever applied
    to arrays of one length; sums run left to right, and the comparisons
    are the IEEE ones, false whenever a NaN is involved. *)
Module Binary64.

#[local] Set Warnings "-inexact-float".

Definition vec (n : nat) : Type := Vector.t float n.

(** [np.array(l)] *)
Definition array (l : list float) : vec (List.length l) := Vector.of_list l.

Definition fsum (l : list float) : float := fold_left PrimFloat.add l 0%float.

Definition dot {n : nat} (a b : vec n) : float :=
  fsum (Vector.to_list (Vector.map2 PrimFloat.mul a b)).

Definition norm {n : nat} (a : vec n) : float := PrimFloat.sqrt (dot a a).

Definition float_of_nat (n : nat) : float :=
  Nat.iter n (fun x => PrimFloat.add x 1%float) 0%float.

Definition mean (l : list float) : float :=
  PrimFloat.div (fsum l) (float_of_nat (List.length l)).

#[export] Instance numpy (n : nat) : NumPy := {|
  ndarray := vec n;
  scalar := float;
  np_dot := dot;
  np_norm := norm;
  np_mean := mean;
  mul := PrimFloat.mul;
  div := PrimFloat.div;
  gt := fun a b => PrimFloat.ltb b a;
  ge := fun a b => PrimFloat.leb b a;
  minus_one := (-1)%float;
  SIMILARITY_THRESHOLD := 0.85%float
|}.

End Binary64.


(** ** The chunk pipeline *)

(** The collaborators of [transcribe_audio] outside the two models:
    [base64.b64decode], faster-whisper's [decode_audio] (16 kHz mono) and
    Resemblyzer's [preprocess_wav], each of which may raise. The temporary
    file is identified with the bytes written to it. *)
Class Collaborators : Type := {
  audio_file : Type;
  waveform : Type;
  wav_len : waveform -> nat;
  b64decode : string -> result audio_file;
  decode_audio : audio_file -> result waveform;
  preprocess_wav : waveform -> result waveform
}.

(** The dictionary returned to the HTTP handler: [{"error": ...}] or the
    four fields text, speaker, language and total_speakers. *)
Inductive response : Type :=
| RError (error : string)
| ROk (text : string) (speaker : option string) (language : string) (total_speakers : nat).

(** Python's [str.strip()] on ASCII text. *)
Definition is_space (c : ascii) : bool :=
  let n := nat_of_ascii c in
  ((9 <=? n) && (n <=? 13)) || ((28 <=? n) && (n <=? 32)).

Fixpoint lstrip (s : string) : string :=
  match s with
  | EmptyString => EmptyString
  | String c s' => if is_space c then lstrip s' else s
  end.

Fixpoint rstrip (s : string) : string :=
  match s with
  | EmptyString => EmptyString
  | String c s' =>
      match rstrip s' with
      | EmptyString => if is_space c then EmptyString else String c EmptyString
      | r => String c r
      end
  end.

Definition str_strip (s : string) : string := lstrip (rstrip s).

Section Pipeline.

Context {NP : NumPy} {CO : Collaborators}.

(** [whisper_model.transcribe(path, language, beam_size=5, vad_filter=True,
    ...)]: the texts of the segments and [info.language], or an exception. *)
Definition WhisperModel : Type :=
  audio_file -> option string -> result (list string * string).

(** [voice_encoder.embed_utterance(wav)] *)
Definition VoiceEncoder : Type := waveform -> result ndarray.

(** The globals that [load_models] sets. *)
Record models : Type := mkModels {
  whisper_model : option WhisperModel;
  voice_encoder : option VoiceEncoder;
  is_ready : bool;
  loading_status : string
}.

Definition models_at_start : models := mkModels None None false "Starting...".

(** [load_models()], given what the two constructors do: a failure of
    Whisper leaves the system not ready, a failure of Resemblyzer only
    leaves [voice_encoder = None]. *)
Definition load_models (new_whisper : result WhisperModel)
    (new_encoder : result VoiceEncoder) (g : models) : models :=
  match new_whisper with
  | Raise x =>
      mkModels (whisper_model g) (voice_encoder g) (is_ready g)
               ("Error: " ++ exn_str x)
  | Ret w =>
      let ve := match new_encoder with Ret v => Some v | Raise _ => None end in
      mkModels (Some w) ve true "Ready"
  end.

(** [load_audio_for_embedding(audio_path)] *)
Definition load_audio_for_embedding (audio_path : audio_file) : option waveform :=
  match decode_audio audio_path with
  | Ret wav => Some wav
  | Raise _ => None
  end.

(** [get_voice_embedding(audio_path)] *)
Definition get_voice_embedding (g : models) (audio_path : audio_file) : option ndarray :=
  match voice_encoder g with
  | None => None
  | Some encoder =>
      match load_audio_for_embedding audio_path with
      | None => None
      | Some wav =>
          if wav_len wav <? 1600 then None
          else
            match preprocess_wav wav with
            | Raise _ => None
            | Ret wav' =>
                if wav_len wav' <? 1600 then None
                else
                  match encoder wav' with
                  | Raise _ => None
                  | Ret embedding => Some embedding
                  end
            end
      end
  end.

(** [language if language != "auto" else None] *)
Definition language_arg (language : string) : option string :=
  if String.eqb language "auto" then None else Some language.

(** [transcribe_audio(audio_base64, language)]: the response and the
    attributor's globals afterwards. Every exception raised inside the
    outer [try] becomes [{"error": str(e)}]. *)
Definition transcribe_audio (g : models) (audio_base64 language : string)
    (st : state) : response * state :=
  if negb (is_ready g) then (RError "Modelo no cargado", st)
  else
    match b64decode audio_base64 with
    | Raise x => (RError (exn_str x), st)
    | Ret tmp_path =>
        let '(detected, st1) :=
          match voice_encoder g with
          | Some _ => detect_speaker (get_voice_embedding g tmp_path) st
          | None => (Ret None, st)
          end in
        match detected with
        | Raise x => (RError (exn_str x), st1)
        | Ret speaker =>
            match whisper_model g with
            | None =>
                (RError (exn_str (AttributeError
                   "'NoneType' object has no attribute 'transcribe'")), st1)
            | Some whisper =>
                match whisper tmp_path (language_arg language) with
                | Raise x => (RError (exn_str x), st1)
                | Ret (segments, info_language) =>
                    let text_parts := map str_strip segments in
                    let full_text := String.concat " " text_parts in
                    (ROk full_text speaker info_language
                         (dict_len (speaker_embeddings st1)), st1)
                end
            end
        end
    end.

End Pipeline.

(** ** What one call of [detect_speaker] can do

    The five ways a call with an embedding ends, as a relation between the
    state before and the pair returned: first speaker, match (the sample is
    appended when the set has room), new speaker, fallback on a full
    registry, exception. *)
Section Outcomes.

Context {NP : NumPy}.

Inductive outcome (e : ndarray) (st : state) : result (option string) * state -> Prop :=
| out_first :
    speaker_embeddings st = [] ->
    outcome e st (Ret (Some "A"%string), mkState [("A"%string, [e])] "A")
| out_match (pre post : dict (list ndarray)) (k : string) (refs : list ndarray) :
    speaker_embeddings st = pre ++ (k, refs) :: post ->
    ~ In k (dict_keys pre) ->
    outcome e st
      (Ret (Some k),
       mkState (pre ++ (k, if List.length refs <? 10 then refs ++ [e] else refs) :: post) k)
| out_new :
    speaker_embeddings st <> [] ->
    dict_len (speaker_embeddings st) < 10 ->
    outcome e st
      (Ret (Some (nth_label (dict_len (speaker_embeddings st)))),
       mkState (speaker_embeddings st
                  ++ [(nth_label (dict_len (speaker_embeddings st)), [e])])
               (nth_label (dict_len (speaker_embeddings st))))
| out_fallback :
    dict_len (speaker_embeddings st) = 10 ->
    outcome e st (Ret (fst (best_match e (speaker_embeddings st))), st)
| out_raise (x : exn) :
    outcome e st (Raise x, st).

(** The ten labels the registry can hold. *)
Definition alphabet : list string :=
  ["A"; "B"; "C"; "D"; "E"; "F"; "G"; "H"; "I"; "J"]%string.

End Outcomes.

(** ** The HTTP handler *)

(** [MODEL_NAME] *)
Definition MODEL_NAME : string := "base".

(** [json.loads(body)] on the bodies the page posts: an object whose
    fields are strings, read with [data.get(key, default)]. [Raise] stands
    for a body that [json.loads] rejects or that is not an object (on which
    [data.get] raises). Fields of other JSON types are not modelled. *)
Class Json : Type := {
  json_loads : string -> result (dict string)
}.

(** [d.get(k, default)] *)
Definition dict_get_default {V : Type} (k : string) (default : V) (d : dict V) : V :=
  match dict_get k d with
  | Some v => v
  | None => default
  end.

(** What a handler writes after the status line: [json.dumps] of a
    pipeline result, of [{"error": ...}], of [{"status": "ok"}], or nothing. *)
Inductive payload : Type :=
| PResult (r : response)
| PError (error : string)
| PStatusOk
| PEmpty.

(** A POST request as the handler sees it: [self.path], the value of the
    Content-Length header when there is one, and the bytes that
    [self.rfile] holds. *)
Record request : Type := mkRequest {
  req_path : string;
  req_content_length : option string;
  req_rfile : string
}.

(** [int] of a string and [bytes.decode('utf-8')], both of which may raise
    ValueError. *)
Class Wire : Type := {
  py_int : string -> result Z;
  utf8_decode : string -> result string
}.

(** [rfile.read(n)]: the first [n] bytes, all of them when [n] is negative. *)
Definition rfile_read (n : Z) (rfile : string) : string :=
  if (n <? 0)%Z then rfile else String.substring 0 (Z.to_nat n) rfile.

(** The first two lines of [do_POST],
    [content_length = int(self.headers.get('Content-Length', 0))] and
    [body = self.rfile.read(content_length).decode('utf-8')], which run
    before the path is looked at and outside any [try]. *)
Definition read_body {W : Wire} (req : request) : result string :=
  match
    match req_content_length req with
    | Some v => py_int v
    | None => Ret 0%Z
    end
  with
  | Raise x => Raise x
  | Ret content_length => utf8_decode (rfile_read content_length (req_rfile req))
  end.

(** What the handler leaves on the connection: a status code with a
    payload, or nothing when an exception leaves [do_POST] before
    [send_response]. *)
Inductive answer : Type :=
| Answer (code : nat) (pl : payload)
| NoAnswer (x : exn).

Section Handler.

Context {NP : NumPy} {CO : Collaborators} {JS : Json} {W : Wire}.

(** The dictionary that [do_GET] sends for [/status]. *)
Record status_report : Type := mkStatus {
  status_ready : bool;
  status_status : string;
  status_model : string;
  status_resemblyzer : bool;
  status_speakers : nat
}.

Definition status (g : models) (st : state) : status_report :=
  mkStatus (is_ready g) (loading_status g) MODEL_NAME
           (match voice_encoder g with Some _ => true | None => false end)
           (dict_len (speaker_embeddings st)).

(** [do_POST]: what is left on the connection, and the attributor's
    globals afterwards. *)
Definition do_POST (req : request) (g : models) (st : state) : answer * state :=
  match read_body req with
  | Raise x => (NoAnswer x, st)
  | Ret body =>
      if String.eqb (req_path req) "/transcribe" then
        match json_loads body with
        | Raise x => (Answer 500 (PError (exn_str x)), st)
        | Ret data =>
            let audio_base64 := dict_get_default "audio" ""%string data in
            let language := dict_get_default "language" "es"%string data in
            let '(result, st') := transcribe_audio g audio_base64 language st in
            (Answer 200 (PResult result), st')
        end
      else if String.eqb (req_path req) "/reset" then
        (Answer 200 PStatusOk, reset_speakers st)
      else
        (Answer 404 PEmpty, st)
  end.

(** The server handles one request at a time ([HTTPServer] is not
    threaded): a session is a list of POST requests. *)
Definition serve (g : models) (requests : list request) (st : state) : state :=
  fold_left (fun s r => snd (do_POST r g s)) requests st.

(** The values of [models] that calls of [load_models] can leave. *)
Inductive loaded : models -> Prop :=
| loaded_start : loaded models_at_start
| loaded_step (new_whisper : result WhisperModel) (new_encoder : result VoiceEncoder)
    (g : models) :
    loaded g -> loaded (load_models new_whisper new_encoder g).

End Handler.

(** ** The page

    The two variables of the page's script that [appendTranscription]
    writes, [fullText] (what the copy button copies) and [lastSpeaker];
    the DOM is left out. *)
Record page : Type := mkPage {
  fullText : string;
  lastSpeaker : option string
}.

(** A speaker is truthy in JavaScript when it is a non-empty string. *)
Definition js_truthy (speaker : option string) : bool :=
  match speaker with
  | Some (String _ _) => true
  | _ => false
  end.

(** [speaker !== lastSpeaker] *)
Definition js_strict_neq (a b : option string) : bool :=
  match a, b with
  | Some x, Some y => negb (String.eqb x y)
  | None, None => false
  | _, _ => true
  end.

(** ['\n[' + speaker + ']: '] *)
Definition speaker_tag (speaker : string) : string :=
  (String (ascii_of_nat 10) "[" ++ speaker ++ "]: ")%string.

(** [appendTranscription(text, speaker)] *)
Definition appendTranscription (text : string) (speaker : option string) (p : page) : page :=
  let p1 :=
    match speaker with
    | Some sp =>
        if js_truthy speaker && js_strict_neq speaker (lastSpeaker p)
        then mkPage (fullText p ++ speaker_tag sp) speaker
        else p
    | None => p
    end in
  mkPage (fullText p1 ++ (text ++ " ")) (lastSpeaker p1).

(** The chunks of a recording, appended in order. *)
Definition append_all (chunks : list (string * option string)) (p : page) : page :=
  fold_left (fun q c => appendTranscription (fst c) (snd c) q) chunks p.

(** The page at load and after the clear button. *)
Definition empty_page : page := mkPage "" None.

(** [String.prototype.trim], a built-in of the browser. *)
Class JavaScript : Type := {
  js_trim : string -> string
}.

(** A string is truthy in JavaScript when it is not empty. *)
Definition str_truthy (s : string) : bool :=
  match s with
  | EmptyString => false
  | String _ _ => true
  end.

(** What [processAudio] does with the parsed response of [/transcribe]:
    nothing on an error (a non-empty [error] returns at once, an empty one
    leaves [result.text] undefined), nothing on a text that is empty or
    blank, and [appendTranscription] otherwise. *)
Definition processAudio {J : JavaScript} (result : response) (p : page) : page :=
  match result with
  | RError _ => p
  | ROk text speaker _ _ =>
      if str_truthy text && str_truthy (js_trim text)
      then appendTranscription text speaker p
      else p
  end.

Section Recording.

Context {NP : NumPy} {CO : Collaborators} {J : JavaScript}.

(** A recording: each chunk, base64 text and language, goes through
    [transcribe_audio] on the server and the response through
    [processAudio] on the page. *)
Definition record_chunk (g : models) (sp : state * page) (chunk : string * string) : state * page :=
  let '(result, st') := transcribe_audio g (fst chunk) (snd chunk) (fst sp) in
  (st', processAudio result (snd sp)).

Definition recording (g : models) (chunks : list (string * string)) (sp : state * page) : state * page :=
  fold_left (record_chunk g) chunks sp.

End Recording.

(** ** Test data

    Embeddings, registries and stand-ins for the collaborators, on which
    the definitions are run. *)
Module Demo.

Import Binary64.

#[local] Open Scope float_scope.

(** The unit vector of axis [i] in dimension ten, and the zero vector
    ([np.zeros(10)]), whose norm is 0. *)
Definition unit10 (i : nat) : @ndarray (numpy 10) :=
  array (map (fun j => if Nat.eqb i j then 1 else 0) (seq 0 10)).

Definition zero10 : @ndarray (numpy 10) := array (repeat 0 10).

(** Ten calls with pairwise orthogonal embeddings: speakers A to J. *)
Definition ten_speakers : @state (numpy 10) :=
  @attribute_all (numpy 10) (map (fun i => Some (unit10 i)) (seq 0 10)) initial_state.

(** The vector opposite to [unit10 0]. *)
Definition opposite10 : @ndarray (numpy 10) := array ((-1) :: repeat 0 9).

(** One embedding opposite to axis 0, then nine zero vectors, each of which
    has a NaN cosine with everything and so starts a speaker of its own. *)
Definition one_real_speaker : @state (numpy 10) :=
  @attribute_all (numpy 10) (Some opposite10 :: repeat (Some zero10) 9) initial_state.

(** Ten calls with the same embedding: speaker A with a full reference set. *)
Definition full_set : @state (numpy 10) :=
  @attribute_all (numpy 10) (repeat (Some (unit10 0)) 10) initial_state.

(** Two-dimensional embeddings: the cosine of [E2] with [E1] is about 0.95,
    that of [E3] with [E1] about 0.39. *)
Definition E1 : @ndarray (numpy 2) := array [1; 0].
Definition E2 : @ndarray (numpy 2) := array [0.9375; 0.3125].
Definition E3 : @ndarray (numpy 2) := array [0.375; 0.875].

(** The zero vector of dimension two, and the registry after it and [E1]:
    speaker A with a reference of norm 0, whose cosine with anything is
    NaN, and speaker B. *)
Definition zero2 : @ndarray (numpy 2) := array [0; 0].

Definition silence_then_one : @state (numpy 2) :=
  @attribute_all (numpy 2) [Some zero2; Some E1] initial_state.

(** Speaker A alone, seen once with [E1]. *)
Definition one_speaker : @state (numpy 2) :=
  @attribute_all (numpy 2) [Some E1] initial_state.

(** Speaker A seen twice with [E3], speaker B once with [E1], A current. *)
Definition two_speakers : @state (numpy 2) :=
  @attribute_all (numpy 2) [Some E3; Some E1; Some E3] initial_state.

(** An embedding halfway between axes 0 and 1: cosine about 0.707 with the
    references of A and of B in [ten_speakers], 0 with the others. *)
Definition between_A_and_B : @ndarray (numpy 10) := array (1 :: 1 :: repeat 0 8).

(** A chunk is named by its content; only "speech" decodes, to 0.2 s of
    audio, and a waveform is known by its number of samples. *)
#[export] Instance collaborators : Collaborators := {|
  audio_file := string;
  waveform := nat;
  wav_len := fun n => n;
  b64decode := fun s => Ret s;
  decode_audio := fun a =>
    if String.eqb a "speech" then Ret 3200%nat
    else Raise (Failure "Invalid data found when processing input");
  preprocess_wav := fun w => Ret w
|}.

(** A speech-to-text engine that decodes the file it is given. *)
Definition whisper : @WhisperModel collaborators :=
  fun a _ =>
    match decode_audio a with
    | Raise x => Raise x
    | Ret _ => Ret ([" hola "; "mundo"]%string, "es"%string)
    end.

Definition encoder : @VoiceEncoder (numpy 2) collaborators := fun _ => Ret E1.

(** Both models loaded, and Resemblyzer missing at startup. *)
Definition both_models : @models (numpy 2) collaborators :=
  load_models (Ret whisper) (Ret encoder) models_at_start.

Definition whisper_only : @models (numpy 2) collaborators :=
  load_models (Ret whisper) (Raise (Failure "No module named 'resemblyzer'"))
              models_at_start.

End Demo.

(** More test data: an engine that fails after the file has been decoded,
    a JSON reader for two fixed bodies, and a short chunk. *)
Module DemoHttp.

Import Binary64 Demo.

(** A speech-to-text engine that always fails. *)
Definition failing_whisper : @WhisperModel collaborators :=
  fun _ _ => Raise (Failure "out of memory").

Definition failing_models : @models (numpy 2) collaborators :=
  load_models (Ret failing_whisper) (Ret encoder) models_at_start.

(** Collaborators for which the chunk "click" decodes to 800 samples. *)
#[export] Instance short_collaborators : Collaborators := {|
  audio_file := string;
  waveform := nat;
  wav_len := fun n => n;
  b64decode := fun s => Ret s;
  decode_audio := fun a =>
    if String.eqb a "click" then Ret 800%nat
    else Raise (Failure "Invalid data found when processing input");
  preprocess_wav := fun w => Ret w
|}.

Definition plain_whisper : @WhisperModel short_collaborators :=
  fun _ _ => Ret (["eh"]%string, "es"%string).

Definition short_models : @models (numpy 2) short_collaborators :=
  @load_models (numpy 2) short_collaborators (Ret plain_whisper)
    (Ret (fun _ => Ret E1)) (@models_at_start (numpy 2) short_collaborators).

(** [json.loads] on three bodies, named rather than spelled out: the
    object the page sends for the chunk "speech", the same for "noise",
    an object without fields; any other body is rejected. *)
#[export] Instance json : Json := {|
  json_loads := fun body =>
    if String.eqb body "speech in es"
    then Ret [("audio", "speech"); ("language", "es")]%string
    else if String.eqb body "noise in es"
    then Ret [("audio", "noise"); ("language", "es")]%string
    else if String.eqb body "empty object"
    then Ret []
    else Raise (ValueError "Expecting value: line 1 column 1 (char 0)")
|}.

(** [int] on strings of decimal digits, [decode] on ASCII bytes; a string
    or a byte outside these is refused with ValueError. *)
Fixpoint digits_to_Z (s : string) (acc : Z) : option Z :=
  match s with
  | EmptyString => Some acc
  | String c s' =>
      let n := nat_of_ascii c in
      if (48 <=? n) && (n <=? 57)
      then digits_to_Z s' (10 * acc + Z.of_nat (n - 48))%Z
      else None
  end.

Fixpoint all_ascii (s : string) : bool :=
  match s with
  | EmptyString => true
  | String c s' => (nat_of_ascii c <? 128) && all_ascii s'
  end.

#[export] Instance wire : Wire := {|
  py_int := fun v =>
    match v, digits_to_Z v 0%Z with
    | String _ _, Some n => Ret n
    | _, _ => Raise (ValueError "invalid literal for int() with base 10")
    end;
  utf8_decode := fun bytes =>
    if all_ascii bytes then Ret bytes
    else Raise (ValueError "'utf-8' codec can't decode byte")
|}.

(** A [trim] for texts without blanks at their ends: the identity. *)
#[export] Instance plain_trim : JavaScript := {| js_trim := fun s => s |}.

End DemoHttp.

(** * Facts *)

(** ** Dictionaries *)

Section DictFacts.

Context {V : Type}.

Implicit Types (k : string) (v : V) (d : dict V).

Lemma dict_get_In k v d : dict_get k d = Some v -> In (k, v) d.
Proof.
  induction d as [|[k' v'] d IH]; simpl; [discriminate|].
  destruct (String.eqb k k') eqn:E.
  - intros [= ->]. apply String.eqb_eq in E. subst. now left.
  - intros H. right. now apply IH.
Qed.

Lemma dict_get_here k v (pre post : dict V) :
  ~ In k (dict_keys pre) -> dict_get k (pre ++ (k, v) :: post) = Some v.
Proof.
  induction pre as [|[k' v'] pre IH]; simpl; intros Hk.
  - now rewrite String.eqb_refl.
  - destruct (String.eqb k k') eqn:E.
    + apply String.eqb_eq in E. subst. tauto.
    + apply IH. tauto.
Qed.

Lemma dict_set_here k v v' (pre post : dict V) :
  ~ In k (dict_keys pre) ->
  dict_set k v' (pre ++ (k, v) :: post) = pre ++ (k, v') :: post.
Proof.
  induction pre as [|[k' w] pre IH]; simpl; intros Hk.
  - now rewrite String.eqb_refl.
  - destruct (String.eqb k k') eqn:E.
    + apply String.eqb_eq in E. subst. tauto.
    + f_equal. apply IH. tauto.
Qed.

Lemma dict_set_fresh k v d :
  ~ In k (dict_keys d) -> dict_set k v d = d ++ [(k, v)].
Proof.
  induction d as [|[k' w] d IH]; simpl; intros Hk; [reflexivity|].
  destruct (String.eqb k k') eqn:E.
  - apply String.eqb_eq in E. subst. tauto.
  - f_equal. apply IH. tauto.
Qed.

Lemma dict_set_present k v v' d :
  dict_get k d = Some v ->
  dict_keys (dict_set k v' d) = dict_keys d /\
  dict_len (dict_set k v' d) = dict_len d.
Proof.
  unfold dict_len.
  induction d as [|[k' w] d IH]; simpl; [discriminate|].
  destruct (String.eqb k k') eqn:E; simpl.
  - intros _. split; reflexivity.
  - intros H. destruct (IH H) as [Hk Hl]. now rewrite Hk, Hl.
Qed.

Lemma dict_set_len_le k v d : dict_len (dict_set k v d) <= S (dict_len d).
Proof.
  unfold dict_len.
  induction d as [|[k' w] d IH]; simpl; [lia|].
  destruct (String.eqb k k'); simpl; lia.
Qed.

Lemma dict_set_Forall (P : string * V -> Prop) k v d :
  Forall P d -> P (k, v) -> Forall P (dict_set k v d).
Proof.
  intros Hd Hv.
  induction Hd as [|[k' w] d Hw Hd IH]; simpl.
  - now constructor.
  - destruct (String.eqb k k') eqn:E.
    + apply String.eqb_eq in E. subst. now constructor.
    + now constructor.
Qed.

Lemma dict_get_set_same k v d : dict_get k (dict_set k v d) = Some v.
Proof.
  induction d as [|[k' w] d IH]; simpl.
  - now rewrite String.eqb_refl.
  - destruct (String.eqb k k') eqn:E; simpl; rewrite E; [reflexivity|exact IH].
Qed.

Lemma dict_get_set_other k k' v d :
  k <> k' -> dict_get k (dict_set k' v d) = dict_get k d.
Proof.
  intros Hne.
  induction d as [|[k'' w] d IH]; simpl.
  - destruct (String.eqb k k') eqn:E; [|reflexivity].
    apply String.eqb_eq in E. contradiction.
  - destruct (String.eqb k' k'') eqn:E'; simpl.
    + destruct (String.eqb k k'') eqn:E; [|reflexivity].
      apply String.eqb_eq in E, E'. congruence.
    + now rewrite IH.
Qed.

Lemma dict_get_keys k v d : dict_get k d = Some v -> In k (dict_keys d).
Proof.
  intros H. apply dict_get_In in H.
  unfold dict_keys. apply in_map_iff. now exists (k, v).
Qed.

End DictFacts.

(** ** Labels *)

Lemma py_chr_label (n : nat) :
  n < 100 -> py_chr (py_ord "A" + n) = Ret (String (ascii_of_nat (py_ord "A" + n)) EmptyString).
Proof.
  intros Hn. unfold py_chr.
  change (py_ord "A") with 65.
  destruct (N.ltb_spec (N.of_nat (65 + n)) 1114112) as [_|H]; [reflexivity|lia].
Qed.

Lemma ascii_label_inj (n m : nat) :
  n < 100 -> m < 100 ->
  String (ascii_of_nat (py_ord "A" + n)) EmptyString =
  String (ascii_of_nat (py_ord "A" + m)) EmptyString -> n = m.
Proof.
  change (py_ord "A") with 65.
  intros Hn Hm [= H].
  apply (f_equal nat_of_ascii) in H.
  rewrite !nat_ascii_embedding in H by lia. lia.
Qed.

(** ** The scan over the registry and the state invariants *)

Section AttributorFacts.

Context {NP : NumPy}.

Implicit Types (e : ndarray) (d : dict (list ndarray)) (st : state).

Lemma nth_label_inj (n m : nat) :
  n < 100 -> m < 100 -> nth_label n = nth_label m -> n = m.
Proof. apply ascii_label_inj. Qed.

Lemma nth_label_fresh d :
  labels_in_order d -> dict_len d < 100 ->
  ~ In (nth_label (dict_len d)) (dict_keys d).
Proof.
  intros Hd Hlen Hin. rewrite Hd in Hin.
  apply in_map_iff in Hin. destruct Hin as (m & Hm & Hseq).
  apply in_seq in Hseq.
  apply nth_label_inj in Hm; lia.
Qed.

Lemma labels_in_order_NoDup d :
  labels_in_order d -> dict_len d < 100 -> NoDup (dict_keys d).
Proof.
  intros Hd Hlen. rewrite Hd.
  assert (Hseq : forall n, In n (seq 0 (dict_len d)) -> n < 100)
    by (intros n Hn; apply in_seq in Hn; lia).
  generalize (seq_NoDup (dict_len d) 0).
  induction (seq 0 (dict_len d)) as [|a l IH]; simpl; intros Hnd.
  - constructor.
  - inversion Hnd as [|? ? Ha Hl]; subst. constructor.
    + intros Hin. apply in_map_iff in Hin. destruct Hin as (m & Hm & Hml).
      apply nth_label_inj in Hm.
      * subst. contradiction.
      * apply Hseq. now right.
      * apply Hseq. now left.
    + apply IH; [|assumption]. intros n Hn. apply Hseq. now right.
Qed.

Lemma labels_in_order_snoc d (refs : list ndarray) :
  labels_in_order d ->
  labels_in_order (d ++ [(nth_label (dict_len d), refs)]).
Proof.
  unfold labels_in_order, dict_keys, dict_len. intros Hd.
  rewrite map_app, length_app, Hd. simpl.
  rewrite Nat.add_1_r, seq_S, map_app. reflexivity.
Qed.

(** The loop leaves the pair alone over identities that do not score
    strictly above [best_similarity]. *)
Lemma scan_stable e (post : dict (list ndarray)) (b : option string) (s : scalar) :
  Forall (fun item => gt (avg_similarity e (snd item)) s = false) post ->
  fold_left (scan_step e) post (b, s) = (b, s).
Proof.
  induction 1 as [|item post Hitem _ IH]; simpl; [reflexivity|].
  unfold scan_step at 2. simpl. now rewrite Hitem.
Qed.

(** The pair after the loop is the initial one or that of an identity. *)
Lemma scan_result e d (acc : option string * scalar) :
  fold_left (scan_step e) d acc = acc \/
  exists k refs, In (k, refs) d /\
    fold_left (scan_step e) d acc = (Some k, avg_similarity e refs).
Proof.
  revert acc. induction d as [|[k refs] d IH]; intros acc; simpl; [now left|].
  destruct (IH (scan_step e acc (k, refs))) as [H|(k' & refs' & Hin & H)].
  - rewrite H. unfold scan_step. simpl.
    destruct (gt (avg_similarity e refs) (snd acc)).
    + right. exists k, refs. split; [now left|reflexivity].
    + now left.
  - right. exists k', refs'. split; [now right|exact H].
Qed.

(** A score strictly above the initial [best_similarity] and above every
    score of a prefix is strictly above [best_similarity] after the prefix. *)
Lemma scan_below e (pre : dict (list ndarray)) (acc : option string * scalar) (s : scalar) :
  gt s (snd acc) = true ->
  Forall (fun item => gt s (avg_similarity e (snd item)) = true) pre ->
  gt s (snd (fold_left (scan_step e) pre acc)) = true.
Proof.
  intros Hacc Hpre.
  destruct (scan_result e pre acc) as [H|(k & refs & Hin & H)]; rewrite H.
  - exact Hacc.
  - simpl. rewrite Forall_forall in Hpre. exact (Hpre _ Hin).
Qed.

(** The loop finds the first identity whose score no other exceeds. *)
Lemma best_match_first e (pre post : dict (list ndarray)) (k : string) (refs : list ndarray) :
  gt (avg_similarity e refs) minus_one = true ->
  Forall (fun item => gt (avg_similarity e refs) (avg_similarity e (snd item)) = true) pre ->
  Forall (fun item => gt (avg_similarity e (snd item)) (avg_similarity e refs) = false) post ->
  best_match e (pre ++ (k, refs) :: post) = (Some k, avg_similarity e refs).
Proof.
  intros Hfloor Hpre Hpost. unfold best_match.
  rewrite fold_left_app. simpl.
  unfold scan_step at 2. simpl.
  rewrite (scan_below e pre (None, minus_one) _ Hfloor Hpre).
  now apply scan_stable.
Qed.

(** The pair after the loop is the initial one, or that of an identity
    whose score was strictly above the [best_similarity] of that moment. *)
Lemma scan_result_taken e d (acc : option string * scalar) :
  fold_left (scan_step e) d acc = acc \/
  exists k refs c, In (k, refs) d /\ gt (avg_similarity e refs) c = true /\
    fold_left (scan_step e) d acc = (Some k, avg_similarity e refs).
Proof.
  revert acc. induction d as [|[k refs] d IH]; intros acc; simpl; [now left|].
  destruct (IH (scan_step e acc (k, refs))) as [H|(k' & refs' & c & Hin & Hc & H)].
  - rewrite H. unfold scan_step. simpl.
    destruct (gt (avg_similarity e refs) (snd acc)) eqn:Hgt.
    + right. exists k, refs, (snd acc). split; [now left|]. split; [exact Hgt|reflexivity].
    + now left.
  - right. exists k', refs', c. split; [now right|]. split; [exact Hc|exact H].
Qed.

(** The loop finds the identity that reaches the threshold, that no
    earlier identity equals or exceeds and that no later one exceeds;
    identities whose score is not a number are passed over. *)
Lemma best_match_first_ordered e (pre post : dict (list ndarray)) (k : string)
    (refs : list ndarray) :
  threshold_above_floor ->
  scores_ordered ->
  ge (avg_similarity e refs) SIMILARITY_THRESHOLD = true ->
  Forall (fun item => ge (avg_similarity e (snd item)) (avg_similarity e refs) = false) pre ->
  Forall (fun item => gt (avg_similarity e (snd item)) (avg_similarity e refs) = false) post ->
  best_match e (pre ++ (k, refs) :: post) = (Some k, avg_similarity e refs).
Proof.
  intros Hfloor Hord Hge Hpre Hpost. unfold best_match.
  rewrite fold_left_app. simpl.
  unfold scan_step at 2. simpl.
  assert (Habove : gt (avg_similarity e refs)
                      (snd (fold_left (scan_step e) pre (None, minus_one))) = true).
  { destruct (scan_result_taken e pre (None, minus_one))
      as [H|(k' & refs' & c & Hin & Hc & H)]; rewrite H; simpl.
    - now apply Hfloor.
    - rewrite Forall_forall in Hpre.
      exact (Hord _ _ c SIMILARITY_THRESHOLD Hc Hge (Hpre _ Hin)). }
  rewrite Habove. now apply scan_stable.
Qed.

(** When no identity reaches the threshold, neither does [best_similarity]. *)
Lemma best_match_below e d :
  floor_below_threshold ->
  Forall (fun item => ge (avg_similarity e (snd item)) SIMILARITY_THRESHOLD = false) d ->
  ge (snd (best_match e d)) SIMILARITY_THRESHOLD = false.
Proof.
  intros Hfloor Hd. unfold best_match.
  destruct (scan_result e d (None, minus_one)) as [H|(k & refs & Hin & H)]; rewrite H.
  - exact Hfloor.
  - simpl. rewrite Forall_forall in Hd. exact (Hd _ Hin).
Qed.

(** The label the loop returns is a key of the registry. *)
Lemma best_match_key e d (k : string) (s : scalar) :
  best_match e d = (Some k, s) ->
  exists refs, In (k, refs) d /\ s = avg_similarity e refs.
Proof.
  unfold best_match. intros Hbm.
  destruct (scan_result e d (None, minus_one)) as [H|(k' & refs & Hin & H)];
    rewrite H in Hbm.
  - discriminate.
  - injection Hbm as -> <-. now exists refs.
Qed.

End AttributorFacts.

(** ** The attributor *)

Section AttributorClaims.

Context {NP : NumPy}.

Implicit Types (e : ndarray) (d : dict (list ndarray)) (st : state).

Lemma dict_empty_false d : d <> [] -> dict_empty d = false.
Proof. destruct d; [congruence|reflexivity]. Qed.

(** C5. [detect_speaker(None)] returns the current speaker as it was before
    the call, and leaves the registry and the current speaker as they were. *)
Theorem attribute_none_echoes st :
  detect_speaker None st = (Ret (Some (current_speaker st)), st).
Proof. reflexivity. Qed.

(** C6. On an empty registry, [detect_speaker] of any embedding returns "A";
    afterwards the registry holds the one identity "A", whose reference set
    is that embedding alone, and the current speaker is "A". *)
Theorem attribute_first e st :
  speaker_embeddings st = [] ->
  detect_speaker (Some e) st = (Ret (Some "A"%string), mkState [("A"%string, [e])] "A").
Proof.
  intros Hd. unfold detect_speaker. rewrite Hd. reflexivity.
Qed.

(** C7. [reset_speakers] leaves the empty registry and the current speaker
    "A", which is the state at module load: whatever the state before the
    reset, a call of [detect_speaker] after it, and any run of calls,
    returns and leaves what it does from the initial state, and the first
    embedding is labelled "A" again. *)
Theorem reset_is_fresh st :
  reset_speakers st = initial_state /\
  speaker_embeddings (reset_speakers st) = [] /\
  current_speaker (reset_speakers st) = "A"%string /\
  (forall emb, detect_speaker emb (reset_speakers st) = detect_speaker emb initial_state) /\
  (forall embs, attribute_all embs (reset_speakers st) = attribute_all embs initial_state) /\
  (forall e, fst (detect_speaker (Some e) (reset_speakers st)) = Ret (Some "A"%string)).
Proof.
  repeat split; reflexivity.
Qed.

(** The matching branch, on the first identity that no other outscores. *)
Lemma detect_speaker_match e st (pre post : dict (list ndarray)) (k : string) (refs : list ndarray) :
  speaker_embeddings st = pre ++ (k, refs) :: post ->
  ~ In k (dict_keys pre) ->
  best_match e (speaker_embeddings st) = (Some k, avg_similarity e refs) ->
  ge (avg_similarity e refs) SIMILARITY_THRESHOLD = true ->
  detect_speaker (Some e) st =
    (Ret (Some k),
     mkState (pre ++ (k, if List.length refs <? 10 then refs ++ [e] else refs) :: post) k).
Proof.
  intros Hd Hk Hbest Hge. unfold detect_speaker.
  rewrite Hbest, Hge, Hd.
  rewrite dict_empty_false by (destruct pre; discriminate).
  unfold getitem. rewrite dict_get_here by assumption.
  destruct (List.length refs <? 10).
  - now rewrite dict_set_here.
  - reflexivity.
Qed.

(** C1. Every identity is scored by [np.mean] of the quotients
    [np.dot(e, emb) / (np.linalg.norm(e) * np.linalg.norm(emb))] over its
    reference embeddings [emb]. On a registry [pre ++ (k, refs) :: post]
    in which the score of [k] reaches SIMILARITY_THRESHOLD, no earlier
    identity scores as much or more (first seen wins ties) and no later
    identity scores more, [detect_speaker] returns [k], sets the current
    speaker to [k], and appends the embedding to [refs] exactly when
    [refs] holds fewer than MAX_REFERENCE_SAMPLES embeddings; nothing else
    changes. An identity whose score is not a number, as with a reference
    of norm 0, neither equals nor exceeds anything and is passed over. *)
Theorem attribute_match e st (pre post : dict (list ndarray)) (k : string) (refs : list ndarray) :
  let score := fun refs' : list ndarray =>
    np_mean (map (fun emb => div (np_dot e emb) (mul (np_norm e) (np_norm emb))) refs') in
  threshold_above_floor ->
  scores_ordered ->
  speaker_embeddings st = pre ++ (k, refs) :: post ->
  NoDup (dict_keys (speaker_embeddings st)) ->
  ge (score refs) SIMILARITY_THRESHOLD = true ->
  Forall (fun item => ge (score (snd item)) (score refs) = false) pre ->
  Forall (fun item => gt (score (snd item)) (score refs) = false) post ->
  detect_speaker (Some e) st =
    (Ret (Some k),
     mkState (pre ++ (k, if List.length refs <? MAX_REFERENCE_SAMPLES
                         then refs ++ [e] else refs) :: post) k).
Proof.
  intros score Hlaw Hord Hd Hnodup Hge Hpre Hpost.
  change (ge (avg_similarity e refs) SIMILARITY_THRESHOLD = true) in Hge.
  change (Forall (fun item => ge (avg_similarity e (snd item))
                               (avg_similarity e refs) = false) pre) in Hpre.
  change (Forall (fun item => gt (avg_similarity e (snd item))
                               (avg_similarity e refs) = false) post) in Hpost.
  apply detect_speaker_match; try assumption.
  - rewrite Hd in Hnodup. unfold dict_keys in Hnodup.
    rewrite map_app in Hnodup. simpl in Hnodup.
    apply NoDup_remove_2 in Hnodup.
    intros Hin. apply Hnodup. apply in_or_app. now left.
  - rewrite Hd. now apply best_match_first_ordered.
Qed.

(** C2. On a non-empty registry of fewer than MAX_SPEAKERS identities,
    labelled in order of appearance, in which no identity's score reaches
    the threshold, [detect_speaker] appends a new identity whose label is
    the letter [dict_len] places after "A" and whose reference set is the
    embedding alone, makes it the current speaker and returns its label. *)
Theorem attribute_new e st :
  floor_below_threshold ->
  speaker_embeddings st <> [] ->
  labels_in_order (speaker_embeddings st) ->
  dict_len (speaker_embeddings st) < MAX_SPEAKERS ->
  Forall (fun item => ge (avg_similarity e (snd item)) SIMILARITY_THRESHOLD = false)
         (speaker_embeddings st) ->
  detect_speaker (Some e) st =
    (Ret (Some (nth_label (dict_len (speaker_embeddings st)))),
     mkState (speaker_embeddings st ++ [(nth_label (dict_len (speaker_embeddings st)), [e])])
             (nth_label (dict_len (speaker_embeddings st)))).
Proof.
  intros Hlaw Hne Hlabels Hlen Hbelow. unfold MAX_SPEAKERS in Hlen.
  unfold detect_speaker.
  rewrite dict_empty_false by assumption.
  pose proof (best_match_below e _ Hlaw Hbelow) as Hb.
  destruct (best_match e (speaker_embeddings st)) as [best_speaker best_similarity].
  simpl in Hb. rewrite Hb.
  rewrite py_chr_label by lia.
  apply Nat.ltb_lt in Hlen. rewrite Hlen. apply Nat.ltb_lt in Hlen.
  fold (nth_label (dict_len (speaker_embeddings st))).
  rewrite dict_set_fresh; [reflexivity|].
  apply nth_label_fresh; [assumption|lia].
Qed.

(** The fallback branch: a full registry, no score at the threshold. *)
Lemma detect_speaker_fallback e st :
  floor_below_threshold ->
  dict_len (speaker_embeddings st) = MAX_SPEAKERS ->
  Forall (fun item => ge (avg_similarity e (snd item)) SIMILARITY_THRESHOLD = false)
         (speaker_embeddings st) ->
  detect_speaker (Some e) st = (Ret (fst (best_match e (speaker_embeddings st))), st).
Proof.
  intros Hlaw Hlen Hbelow. unfold MAX_SPEAKERS in Hlen.
  unfold detect_speaker.
  rewrite dict_empty_false by (intros H; rewrite H in Hlen; discriminate).
  pose proof (best_match_below e _ Hlaw Hbelow) as Hb.
  destruct (best_match e (speaker_embeddings st)) as [best_speaker best_similarity].
  simpl in Hb. rewrite Hb.
  rewrite py_chr_label by lia.
  rewrite Hlen. reflexivity.
Qed.

End AttributorClaims.

(** ** Reachable states *)

Section Reachability.

Context {NP : NumPy}.

Implicit Types (e : ndarray) (d : dict (list ndarray)) (st : state).

Lemma registry_ok_empty : registry_ok [].
Proof.
  split; [reflexivity|]. split; [unfold MAX_SPEAKERS; simpl; lia|constructor].
Qed.

(** Every call of [detect_speaker] keeps the registry invariant. *)
Lemma detect_speaker_ok emb st :
  registry_ok (speaker_embeddings st) ->
  registry_ok (speaker_embeddings (snd (detect_speaker emb st))).
Proof.
  intros Hok. destruct emb as [e|]; [|exact Hok].
  pose proof Hok as (Hlab & Hlen & Hrefs).
  unfold MAX_SPEAKERS in Hlen. unfold MAX_REFERENCE_SAMPLES in Hrefs.
  unfold detect_speaker.
  destruct (dict_empty (speaker_embeddings st)) eqn:Hemp.
  - destruct (speaker_embeddings st); [|discriminate]. simpl.
    split; [reflexivity|]. split.
    + unfold MAX_SPEAKERS. simpl. lia.
    + constructor; [unfold MAX_REFERENCE_SAMPLES; simpl; lia|constructor].
  - destruct (best_match e (speaker_embeddings st)) as [best_speaker best_similarity].
    destruct (ge best_similarity SIMILARITY_THRESHOLD).
    + destruct best_speaker as [k|]; simpl; [|exact Hok].
      destruct (dict_get k (speaker_embeddings st)) as [refs|] eqn:Hget; [|exact Hok].
      simpl. destruct (List.length refs <? 10) eqn:Hfull; [|exact Hok].
      apply Nat.ltb_lt in Hfull.
      destruct (dict_set_present k refs (refs ++ [e]) _ Hget) as [Hkeys Hsize].
      repeat split.
      * unfold labels_in_order. rewrite Hkeys, Hsize. exact Hlab.
      * rewrite Hsize. exact Hlen.
      * apply dict_set_Forall; [exact Hrefs|].
        simpl. rewrite length_app. simpl. unfold MAX_REFERENCE_SAMPLES. lia.
    + rewrite py_chr_label by lia.
      destruct (dict_len (speaker_embeddings st) <? 10) eqn:Hroom; [|exact Hok].
      apply Nat.ltb_lt in Hroom. simpl.
      fold (nth_label (dict_len (speaker_embeddings st))).
      rewrite dict_set_fresh by (apply nth_label_fresh; [assumption|lia]).
      repeat split.
      * now apply labels_in_order_snoc.
      * unfold dict_len in *. rewrite length_app. simpl. unfold MAX_SPEAKERS. lia.
      * apply Forall_app. split; [exact Hrefs|].
        constructor; [simpl; unfold MAX_REFERENCE_SAMPLES; lia|constructor].
Qed.

Lemma reachable_ok st : reachable st -> registry_ok (speaker_embeddings st).
Proof.
  induction 1 as [|emb st _ IH|st _ _].
  - apply registry_ok_empty.
  - now apply detect_speaker_ok.
  - apply registry_ok_empty.
Qed.

(** The conditions on the registry under which C1 and C2 are stated hold
    in every reachable state. *)
Lemma reachable_labels_in_order st :
  reachable st -> labels_in_order (speaker_embeddings st).
Proof. intros H. now destruct (reachable_ok st H). Qed.

Lemma reachable_keys_NoDup st :
  reachable st -> NoDup (dict_keys (speaker_embeddings st)).
Proof.
  intros H. destruct (reachable_ok st H) as (Hlab & Hlen & _).
  unfold MAX_SPEAKERS in Hlen.
  apply labels_in_order_NoDup; [exact Hlab|lia].
Qed.

Lemma reachable_attribute_all embs st :
  reachable st -> reachable (attribute_all embs st).
Proof.
  revert st. induction embs as [|emb embs IH]; intros st Hst; simpl; [exact Hst|].
  apply IH. now constructor.
Qed.

(** A full reference set is the same after any call of [detect_speaker]. *)
Lemma full_set_kept emb st (k : string) (refs : list ndarray) :
  registry_ok (speaker_embeddings st) ->
  dict_get k (speaker_embeddings st) = Some refs ->
  List.length refs = MAX_REFERENCE_SAMPLES ->
  dict_get k (speaker_embeddings (snd (detect_speaker emb st))) = Some refs.
Proof.
  intros (Hlab & Hlen & _) Hget Hfull. destruct emb as [e|]; [|exact Hget].
  unfold MAX_SPEAKERS in Hlen. unfold MAX_REFERENCE_SAMPLES in Hfull.
  unfold detect_speaker.
  destruct (dict_empty (speaker_embeddings st)) eqn:Hemp.
  - destruct (speaker_embeddings st); discriminate.
  - destruct (best_match e (speaker_embeddings st)) as [best_speaker best_similarity].
    destruct (ge best_similarity SIMILARITY_THRESHOLD).
    + destruct best_speaker as [k'|]; simpl; [|exact Hget].
      destruct (dict_get k' (speaker_embeddings st)) as [refs'|] eqn:Hget'; [|exact Hget].
      simpl. destruct (List.length refs' <? 10) eqn:Hroom; [|exact Hget].
      destruct (String.eqb k k') eqn:E.
      * apply String.eqb_eq in E. subst k'.
        rewrite Hget in Hget'. injection Hget' as <-.
        rewrite Hfull in Hroom. discriminate.
      * apply String.eqb_neq in E. now rewrite dict_get_set_other.
    + rewrite py_chr_label by lia.
      destruct (dict_len (speaker_embeddings st) <? 10) eqn:Hroom; [|exact Hget].
      apply Nat.ltb_lt in Hroom. simpl.
      rewrite dict_get_set_other; [exact Hget|].
      intros ->. apply dict_get_keys in Hget.
      revert Hget. apply nth_label_fresh; [assumption|lia].
Qed.

(** C4. In every state reached from the initial one by calls of
    [detect_speaker] and [reset_speakers], the registry holds at most
    MAX_SPEAKERS identities and every reference set holds at most
    MAX_REFERENCE_SAMPLES embeddings. A reference set that is full is the
    same after any further call of [detect_speaker]; and a call that
    attributes its embedding to an identity whose set is full returns that
    label and leaves the whole registry as it was: the embedding is
    dropped, no older sample is replaced. *)
Theorem reachable_within_caps st :
  reachable st ->
  dict_len (speaker_embeddings st) <= MAX_SPEAKERS /\
  Forall (fun item => List.length (snd item) <= MAX_REFERENCE_SAMPLES)
         (speaker_embeddings st) /\
  (forall emb k refs,
      dict_get k (speaker_embeddings st) = Some refs ->
      List.length refs = MAX_REFERENCE_SAMPLES ->
      dict_get k (speaker_embeddings (snd (detect_speaker emb st))) = Some refs) /\
  (forall e k refs,
      dict_get k (speaker_embeddings st) = Some refs ->
      List.length refs = MAX_REFERENCE_SAMPLES ->
      fst (best_match e (speaker_embeddings st)) = Some k ->
      ge (snd (best_match e (speaker_embeddings st))) SIMILARITY_THRESHOLD = true ->
      detect_speaker (Some e) st = (Ret (Some k), mkState (speaker_embeddings st) k)).
Proof.
  intros Hreach. pose proof (reachable_ok st Hreach) as Hok.
  destruct Hok as (Hlab & Hlen & Hrefs).
  split; [exact Hlen|]. split; [exact Hrefs|]. split.
  - intros emb k refs Hget Hfull.
    apply full_set_kept; [repeat split; assumption|assumption|assumption].
  - intros e k refs Hget Hfull Hbest Hge.
    unfold detect_speaker.
    destruct (dict_empty (speaker_embeddings st)) eqn:Hemp.
    + destruct (speaker_embeddings st); discriminate.
    + destruct (best_match e (speaker_embeddings st)) as [best_speaker best_similarity].
      simpl in Hbest, Hge. subst best_speaker. rewrite Hge.
      unfold getitem. rewrite Hget.
      unfold MAX_REFERENCE_SAMPLES in Hfull. rewrite Hfull. reflexivity.
Qed.

(** C10. On a registry of MAX_SPEAKERS identities none of whose scores
    reaches the threshold, [detect_speaker] returns the label that the scan
    found and changes nothing: the current speaker is not set to that
    label, and a following [detect_speaker(None)] returns the current
    speaker of before the fallback call. The label returned is that of the
    first identity that no other outscores, when one scores above -1. *)
Theorem fallback_keeps_current_speaker e st :
  floor_below_threshold ->
  dict_len (speaker_embeddings st) = MAX_SPEAKERS ->
  Forall (fun item => ge (avg_similarity e (snd item)) SIMILARITY_THRESHOLD = false)
         (speaker_embeddings st) ->
  detect_speaker (Some e) st = (Ret (fst (best_match e (speaker_embeddings st))), st) /\
  current_speaker (snd (detect_speaker (Some e) st)) = current_speaker st /\
  detect_speaker None (snd (detect_speaker (Some e) st)) =
    (Ret (Some (current_speaker st)), st) /\
  (forall pre post k refs,
      speaker_embeddings st = pre ++ (k, refs) :: post ->
      gt (avg_similarity e refs) minus_one = true ->
      Forall (fun item => gt (avg_similarity e refs) (avg_similarity e (snd item)) = true) pre ->
      Forall (fun item => gt (avg_similarity e (snd item)) (avg_similarity e refs) = false) post ->
      fst (detect_speaker (Some e) st) = Ret (Some k)).
Proof.
  intros Hlaw Hlen Hbelow.
  pose proof (detect_speaker_fallback e st Hlaw Hlen Hbelow) as Hfb.
  rewrite Hfb. simpl. repeat split.
  intros pre post k refs Hd Hfloor Hpre Hpost.
  rewrite Hd. now rewrite best_match_first.
Qed.

End Reachability.

(** ** The pipeline *)

Section PipelineClaims.

Context {NP : NumPy} {CO : Collaborators}.

(** C8. For a chunk that base64-decodes to a file the audio decoder fails
    on, and a speech-to-text engine that raises on that file (it decodes it
    with the same decoder), [transcribe_audio] returns an error response;
    no embedding is computed, so [detect_speaker], which is called only when
    the encoder is loaded, gets [None] and echoes the current speaker
    without scoring or storing anything; the registry, its size and the
    current speaker are as before the call. *)
Theorem decode_failure_is_error (g : models) (audio_base64 language : string)
    (st : state) (tmp_path : audio_file) (x : exn) :
  b64decode audio_base64 = Ret tmp_path ->
  decode_audio tmp_path = Raise x ->
  (forall whisper, whisper_model g = Some whisper ->
     exists y, whisper tmp_path (language_arg language) = Raise y) ->
  get_voice_embedding g tmp_path = None /\
  detect_speaker (get_voice_embedding g tmp_path) st =
    (Ret (Some (current_speaker st)), st) /\
  (exists msg, transcribe_audio g audio_base64 language st = (RError msg, st)) /\
  dict_len (speaker_embeddings (snd (transcribe_audio g audio_base64 language st))) =
    dict_len (speaker_embeddings st).
Proof.
  intros Hb64 Hdec Hstt.
  assert (Hemb : get_voice_embedding g tmp_path = None).
  { unfold get_voice_embedding, load_audio_for_embedding.
    rewrite Hdec. now destruct (voice_encoder g). }
  assert (Herr : exists msg, transcribe_audio g audio_base64 language st = (RError msg, st)).
  { unfold transcribe_audio.
    destruct (is_ready g); simpl; [|eauto].
    rewrite Hb64, Hemb.
    assert (Hw : forall speaker,
      exists msg,
        match whisper_model g with
        | None =>
            (RError (exn_str (AttributeError
               "'NoneType' object has no attribute 'transcribe'")), st)
        | Some whisper =>
            match whisper tmp_path (language_arg language) with
            | Raise x0 => (RError (exn_str x0), st)
            | Ret (segments, info_language) =>
                (ROk (String.concat " " (map str_strip segments)) speaker
                     info_language (dict_len (speaker_embeddings st)), st)
            end
        end = (RError msg, st)).
    { intros speaker. destruct (whisper_model g) as [whisper|]; [|eauto].
      destruct (Hstt whisper eq_refl) as [y Hy]. rewrite Hy. eauto. }
    destruct (voice_encoder g); simpl; apply Hw. }
  split; [exact Hemb|]. split; [now rewrite Hemb|]. split; [exact Herr|].
  destruct Herr as [msg Hmsg]. now rewrite Hmsg.
Qed.

(** C9, as the code has it. When Resemblyzer failed to load at startup the
    system is ready with [voice_encoder = None]; a chunk that decodes and
    that Whisper transcribes yields a response with the joined text and the
    language, whose speaker is [None], not the current speaker; the
    attributor is not called and its state is unchanged. *)
Theorem no_encoder_no_label (g0 : models) (whisper : WhisperModel) (x : exn)
    (audio_base64 language : string) (st : state) (tmp_path : audio_file)
    (segments : list string) (info_language : string) :
  b64decode audio_base64 = Ret tmp_path ->
  whisper tmp_path (language_arg language) = Ret (segments, info_language) ->
  voice_encoder (load_models (Ret whisper) (Raise x) g0) = None /\
  is_ready (load_models (Ret whisper) (Raise x) g0) = true /\
  transcribe_audio (load_models (Ret whisper) (Raise x) g0) audio_base64 language st =
    (ROk (String.concat " " (map str_strip segments)) None info_language
         (dict_len (speaker_embeddings st)), st).
Proof.
  intros Hb64 Hstt. split; [reflexivity|]. split; [reflexivity|].
  unfold transcribe_audio. simpl. rewrite Hb64. simpl. now rewrite Hstt.
Qed.

End PipelineClaims.

(** ** Double precision floats meet the two conditions on the literals *)

Lemma binary64_threshold_above_floor (n : nat) :
  @threshold_above_floor (Binary64.numpy n).
Proof.
  intros s.
  cbv [ge gt SIMILARITY_THRESHOLD minus_one Binary64.numpy scalar] in *.
  rewrite leb_spec, ltb_spec.
  destruct (Prim2SF s) as [sg|sg| |sg mant ex]; try destruct sg;
    vm_compute; congruence.
Qed.

Lemma binary64_floor_below_threshold (n : nat) :
  @floor_below_threshold (Binary64.numpy n).
Proof. reflexivity. Qed.

(** The comparison of the specification of floats: swapping the operands
    swaps the answer, and two operands that are not NaN have an answer. *)
Lemma SFcompare_antisym (A B : spec_float) :
  SFcompare B A =
  match SFcompare A B with Some c => Some (CompOpp c) | None => None end.
Proof.
  destruct A as [sa|sa| |sa ma ea], B as [sb|sb| |sb mb eb];
    try destruct sa; try destruct sb; try reflexivity; simpl;
    rewrite (Z.compare_antisym ea eb);
    destruct (ea ?= eb)%Z; simpl; try reflexivity;
    now rewrite (Pos.compare_cont_antisym ma mb Eq).
Qed.

Lemma SFcompare_nan_r (C : spec_float) : SFcompare C S754_nan = None.
Proof. now destruct C. Qed.

Lemma SFcompare_numbers (A B : spec_float) :
  A <> S754_nan -> B <> S754_nan -> exists c, SFcompare A B = Some c.
Proof.
  destruct A, B; simpl; intros HA HB; try congruence; eauto.
Qed.

Lemma binary64_scores_ordered (n : nat) : @scores_ordered (Binary64.numpy n).
Proof.
  intros a b c d.
  cbv [ge gt Binary64.numpy scalar].
  rewrite !leb_spec, !ltb_spec. unfold SFleb, SFltb.
  intros Hca Hdb Hba.
  assert (HA : Prim2SF a <> S754_nan)
    by (intros E; rewrite E, SFcompare_nan_r in Hca; discriminate).
  assert (HB : Prim2SF b <> S754_nan)
    by (intros E; rewrite E, SFcompare_nan_r in Hdb; discriminate).
  rewrite (SFcompare_antisym (Prim2SF a) (Prim2SF b)) in Hba.
  destruct (SFcompare_numbers _ _ HA HB) as [cmp Hcmp].
  rewrite Hcmp in *. destruct cmp; simpl in Hba; congruence.
Qed.

(** ** The definitions on the test data *)

Section Runs.

Import Binary64 Demo.

#[local] Open Scope float_scope.

Example cosine_self : cosine E1 E1 = 1.
Proof. reflexivity. Qed.

Example cosine_zero_is_nan : PrimFloat.is_nan (cosine zero10 (unit10 0)) = true.
Proof. reflexivity. Qed.

Example cosine_E2_E1 : ge (cosine E2 E1) SIMILARITY_THRESHOLD = true.
Proof. reflexivity. Qed.

Example cosine_E3_E1 : ge (cosine E3 E1) SIMILARITY_THRESHOLD = false.
Proof. reflexivity. Qed.

Example labels_A_to_J :
  map nth_label (seq 0 10) =
  ["A"; "B"; "C"; "D"; "E"; "F"; "G"; "H"; "I"; "J"]%string.
Proof. reflexivity. Qed.

Example ten_speakers_labels :
  dict_keys (speaker_embeddings ten_speakers) =
  ["A"; "B"; "C"; "D"; "E"; "F"; "G"; "H"; "I"; "J"]%string
  /\ current_speaker ten_speakers = "J"%string.
Proof. split; reflexivity. Qed.

Example full_set_size :
  map (fun item => List.length (snd item)) (speaker_embeddings full_set) = [10%nat].
Proof. reflexivity. Qed.

Example strip_join :
  String.concat " " (map str_strip [" hola "; "mundo"]%string) = "hola mundo"%string.
Proof. reflexivity. Qed.

(** The scenario of two close embeddings: same label, two samples. *)
Example two_close_embeddings :
  attribute_all [Some E1; Some E2] initial_state =
  mkState [("A"%string, [E1; E2])] "A".
Proof. reflexivity. Qed.

(** The scenario of two distant embeddings: a second label. *)
Example two_distant_embeddings :
  attribute_all [Some E1; Some E3] initial_state =
  mkState [("A"%string, [E1]); ("B"%string, [E3])] "B".
Proof. reflexivity. Qed.

End Runs.

(** ** The claims on the test data *)

Section Witnesses.

Import Binary64 Demo.

Lemma attribute_first_witness :
  detect_speaker (Some E1) initial_state =
  (Ret (Some "A"%string), mkState [("A"%string, [E1])] "A").
Proof.
  apply (attribute_first (NP := numpy 2) E1 initial_state). reflexivity.
Defined.

(** An earlier identity whose score is not a number does not keep a later
    one from matching: A holds the zero vector, B holds [E1]. *)
Lemma attribute_match_witness :
  detect_speaker (Some E2) silence_then_one =
  (Ret (Some "B"%string),
   mkState [("A"%string, [zero2]); ("B"%string, [E1; E2])] "B").
Proof.
  apply (attribute_match (NP := numpy 2) E2 silence_then_one
           [("A"%string, [zero2])] [] "B"%string [E1]).
  - exact (binary64_threshold_above_floor 2).
  - exact (binary64_scores_ordered 2).
  - vm_compute. reflexivity.
  - repeat constructor; simpl; intuition discriminate.
  - vm_compute. reflexivity.
  - constructor; [vm_compute; reflexivity|constructor].
  - constructor.
Defined.

(** The same on two speakers with numeric scores: B is the best. *)
Example attribute_match_two_speakers :
  detect_speaker (Some E2) two_speakers =
  (Ret (Some "B"%string),
   mkState [("A"%string, [E3; E3]); ("B"%string, [E1; E2])] "B").
Proof. vm_compute. reflexivity. Qed.

Lemma attribute_new_witness :
  detect_speaker (Some E3) one_speaker =
  (Ret (Some "B"%string),
   mkState [("A"%string, [E1]); ("B"%string, [E3])] "B").
Proof.
  apply (attribute_new (NP := numpy 2) E3 one_speaker).
  - exact (binary64_floor_below_threshold _).
  - discriminate.
  - reflexivity.
  - unfold MAX_SPEAKERS. simpl. lia.
  - repeat constructor.
Defined.

Lemma reachable_within_caps_witness :
  reachable full_set /\
  dict_get "A" (speaker_embeddings full_set) = Some (repeat (unit10 0) 10) /\
  detect_speaker (Some (unit10 0)) full_set =
    (Ret (Some "A"%string), mkState (speaker_embeddings full_set) "A").
Proof.
  assert (Hreach : reachable full_set)
    by (apply reachable_attribute_all; constructor).
  split; [exact Hreach|]. split; [reflexivity|].
  destruct (reachable_within_caps (NP := numpy 10) full_set Hreach) as (_ & _ & _ & Hdrop).
  apply (Hdrop (unit10 0) "A"%string (repeat (unit10 0) 10)); reflexivity.
Defined.

Lemma fallback_keeps_current_speaker_witness :
  detect_speaker (Some between_A_and_B) ten_speakers =
    (Ret (Some "A"%string), ten_speakers) /\
  detect_speaker None (snd (detect_speaker (Some between_A_and_B) ten_speakers)) =
    (Ret (Some "J"%string), ten_speakers) /\
  "A"%string <> "J"%string.
Proof.
  assert (Hlen : dict_len (speaker_embeddings ten_speakers) = MAX_SPEAKERS)
    by (vm_compute; reflexivity).
  assert (Hbelow :
    Forall (fun item => ge (avg_similarity between_A_and_B (snd item))
                           SIMILARITY_THRESHOLD = false)
           (speaker_embeddings ten_speakers))
    by (vm_compute; repeat constructor).
  destruct (fallback_keeps_current_speaker (NP := numpy 10) between_A_and_B ten_speakers
              (binary64_floor_below_threshold 10) Hlen Hbelow)
    as (Hret & _ & Hnext & _).
  split; [|split].
  - etransitivity; [exact Hret|vm_compute; reflexivity].
  - etransitivity; [exact Hnext|vm_compute; reflexivity].
  - discriminate.
Defined.

Lemma decode_failure_is_error_witness :
  get_voice_embedding both_models "noise"%string = None /\
  detect_speaker (get_voice_embedding both_models "noise"%string) two_speakers =
    (Ret (Some (current_speaker two_speakers)), two_speakers) /\
  (exists msg,
     transcribe_audio both_models "noise" "es" two_speakers = (RError msg, two_speakers)) /\
  dict_len (speaker_embeddings
              (snd (transcribe_audio both_models "noise" "es" two_speakers))) =
    dict_len (speaker_embeddings two_speakers).
Proof.
  apply (decode_failure_is_error (NP := numpy 2) (CO := collaborators) both_models "noise" "es" two_speakers "noise"%string
           (Failure "Invalid data found when processing input")).
  - reflexivity.
  - reflexivity.
  - intros w Hw. simpl in Hw. injection Hw as <-.
    exists (Failure "Invalid data found when processing input"). reflexivity.
Defined.

Lemma no_encoder_no_label_witness :
  voice_encoder whisper_only = None /\
  is_ready whisper_only = true /\
  transcribe_audio whisper_only "speech" "es" initial_state =
    (ROk "hola mundo" None "es" 0, initial_state).
Proof.
  apply (no_encoder_no_label (NP := numpy 2) (CO := collaborators) models_at_start whisper
           (Failure "No module named 'resemblyzer'") "speech" "es" initial_state
           "speech"%string [" hola "; "mundo"]%string "es"%string).
  - reflexivity.
  - reflexivity.
Defined.

(** Against C9: with Resemblyzer missing, a chunk that is transcribed comes
    back with no speaker, while the current speaker is "A". *)
Lemma no_encoder_speaker_is_none :
  voice_encoder whisper_only = None /\
  current_speaker (@initial_state (numpy 2)) = "A"%string /\
  transcribe_audio whisper_only "speech" "es" initial_state =
    (ROk "hola mundo" None "es" 0, initial_state) /\
  (forall text language n st',
     transcribe_audio whisper_only "speech" "es" initial_state <>
     (ROk text (Some (current_speaker (@initial_state (numpy 2)))) language n, st')).
Proof.
  repeat split. intros text language n st' H. discriminate H.
Qed.

(** C3, where the code departs from it. The registry holds MAX_SPEAKERS
    identities and no score reaches the threshold, yet [detect_speaker]
    returns Python's [None] rather than a label of the registry, because
    no score is strictly above the initial [best_similarity = -1]: with the
    zero vector every score is NaN; and in [one_real_speaker] speaker A
    scores exactly -1 against [unit10 0] and the nine others NaN. The
    registry is left as it was in both. *)
Theorem fallback_returns_no_label :
  (reachable ten_speakers /\
   dict_len (speaker_embeddings ten_speakers) = MAX_SPEAKERS /\
   Forall (fun item => ge (avg_similarity zero10 (snd item)) SIMILARITY_THRESHOLD = false)
          (speaker_embeddings ten_speakers) /\
   detect_speaker (Some zero10) ten_speakers = (Ret None, ten_speakers)) /\
  (reachable one_real_speaker /\
   dict_len (speaker_embeddings one_real_speaker) = MAX_SPEAKERS /\
   Forall (fun item => ge (avg_similarity (unit10 0) (snd item)) SIMILARITY_THRESHOLD = false)
          (speaker_embeddings one_real_speaker) /\
   dict_get "A" (speaker_embeddings one_real_speaker) = Some [opposite10] /\
   avg_similarity (unit10 0) [opposite10] = (-1)%float /\
   detect_speaker (Some (unit10 0)) one_real_speaker = (Ret None, one_real_speaker)).
Proof.
  split.
  - split; [apply reachable_attribute_all; constructor|].
    split; [vm_compute; reflexivity|].
    split; [vm_compute; repeat constructor|].
    vm_compute; reflexivity.
  - split; [apply reachable_attribute_all; constructor|].
    split; [vm_compute; reflexivity|].
    split; [vm_compute; repeat constructor|].
    split; [vm_compute; reflexivity|].
    split; vm_compute; reflexivity.
Qed.

End Witnesses.

(** * Further properties of the code *)

(** ** More on dictionaries *)

Section DictSplit.

Context {V : Type}.

Implicit Types (k : string) (v : V) (d : dict V).

Lemma dict_get_split k v d :
  dict_get k d = Some v ->
  exists pre post, d = pre ++ (k, v) :: post /\ ~ In k (dict_keys pre).
Proof.
  induction d as [|[k' w] d IH]; simpl; [discriminate|].
  destruct (String.eqb k k') eqn:E.
  - intros [= ->]. apply String.eqb_eq in E. subst k'.
    exists [], d. split; [reflexivity|]. intros [].
  - intros H. destruct (IH H) as (pre & post & -> & Hpre).
    exists ((k', w) :: pre), post. split; [reflexivity|].
    simpl. intros [Heq|Hin]; [|contradiction].
    subst k'. now rewrite String.eqb_refl in E.
Qed.

Lemma dict_get_of_key k d :
  In k (dict_keys d) -> exists v, dict_get k d = Some v.
Proof.
  induction d as [|[k' w] d IH]; simpl; [intros []|].
  destruct (String.eqb k k') eqn:E; [eauto|].
  intros [Heq|Hin]; [|now apply IH].
  subst k'. now rewrite String.eqb_refl in E.
Qed.

Lemma dict_get_app_l k v d (d' : dict V) :
  dict_get k d = Some v -> dict_get k (d ++ d') = Some v.
Proof.
  induction d as [|[k' w] d IH]; simpl; [discriminate|].
  destruct (String.eqb k k'); [trivial|exact IH].
Qed.

Lemma dict_get_other_here k k' v v' (pre post : dict V) :
  k <> k' ->
  dict_get k (pre ++ (k', v') :: post) = dict_get k (pre ++ (k', v) :: post).
Proof.
  intros Hne. induction pre as [|[k'' w] pre IH]; simpl.
  - apply String.eqb_neq in Hne. now rewrite Hne.
  - destruct (String.eqb k k''); [reflexivity|exact IH].
Qed.

Lemma dict_keys_app (d d' : dict V) : dict_keys (d ++ d') = dict_keys d ++ dict_keys d'.
Proof. apply map_app. Qed.

End DictSplit.

(** ** The outcomes of a call *)

Section OutcomeFacts.

Context {NP : NumPy}.

Implicit Types (e : ndarray) (d : dict (list ndarray)) (st : state).

(** Once the loop has taken an identity, [best_speaker] stays a label. *)
Lemma scan_some_stays e d (k : string) (s : scalar) :
  exists k', fst (fold_left (scan_step e) d (Some k, s)) = Some k'.
Proof.
  revert k s. induction d as [|item d IH]; intros k s; simpl; [eauto|].
  unfold scan_step at 2. simpl.
  destruct (gt (avg_similarity e (snd item)) s); apply IH.
Qed.

(** The loop ends with [best_speaker = None] exactly when no identity
    scores strictly above the initial [best_similarity]. *)
Lemma scan_none e d (s : scalar) :
  fst (fold_left (scan_step e) d (None, s)) = None <->
  Forall (fun item => gt (avg_similarity e (snd item)) s = false) d.
Proof.
  split.
  - induction d as [|item d IH]; simpl; [constructor|].
    unfold scan_step at 2. simpl.
    destruct (gt (avg_similarity e (snd item)) s) eqn:Hgt.
    + intros H. destruct (scan_some_stays e d (fst item) (avg_similarity e (snd item)))
        as [k' Hk']. congruence.
    + intros H. constructor; [exact Hgt|now apply IH].
  - intros H. now rewrite scan_stable.
Qed.

Lemma detect_speaker_outcome e st :
  registry_ok (speaker_embeddings st) ->
  outcome e st (detect_speaker (Some e) st).
Proof.
  intros (Hlab & Hlen & _). unfold MAX_SPEAKERS in Hlen.
  unfold detect_speaker.
  destruct (dict_empty (speaker_embeddings st)) eqn:Hemp.
  - destruct (speaker_embeddings st) eqn:Hd; [|discriminate].
    simpl. now apply out_first.
  - assert (Hne : speaker_embeddings st <> [])
      by (intros H; rewrite H in Hemp; discriminate).
    destruct (best_match e (speaker_embeddings st)) as [best_speaker best_similarity] eqn:Hbm.
    destruct (ge best_similarity SIMILARITY_THRESHOLD).
    + destruct best_speaker as [k|]; simpl; [|apply out_raise].
      destruct (dict_get k (speaker_embeddings st)) as [refs|] eqn:Hget; [|apply out_raise].
      destruct (dict_get_split k refs _ Hget) as (pre & post & Hd & Hpre).
      replace (if List.length refs <? 10
               then dict_set k (refs ++ [e]) (speaker_embeddings st)
               else speaker_embeddings st)
        with (pre ++ (k, if List.length refs <? 10 then refs ++ [e] else refs) :: post).
      * now apply out_match.
      * destruct (List.length refs <? 10); [|now rewrite Hd].
        rewrite Hd. now rewrite dict_set_here.
    + rewrite py_chr_label by lia.
      destruct (dict_len (speaker_embeddings st) <? 10) eqn:Hroom.
      * apply Nat.ltb_lt in Hroom.
        fold (nth_label (dict_len (speaker_embeddings st))).
        rewrite dict_set_fresh by (apply nth_label_fresh; [assumption|lia]).
        now apply out_new.
      * apply Nat.ltb_ge in Hroom.
        replace best_speaker with (fst (best_match e (speaker_embeddings st)))
          by now rewrite Hbm.
        apply out_fallback. lia.
Qed.

End OutcomeFacts.

(** ** Invariants and frame properties of the attributor *)

Section AttributorMore.

Context {NP : NumPy}.

Implicit Types (e : ndarray) (d : dict (list ndarray)) (st : state).

Lemma firstn_seq_le (n m start : nat) :
  n <= m -> firstn n (seq start m) = seq start n.
Proof.
  revert m start. induction n as [|n IH]; intros m start Hle; [reflexivity|].
  destruct m as [|m]; [lia|]. simpl. f_equal. apply IH. lia.
Qed.

Lemma labels_prefix_of_alphabet (n : nat) :
  n <= 10 -> map nth_label (seq 0 n) = firstn n alphabet.
Proof.
  intros Hn. change alphabet with (map nth_label (seq 0 10)).
  now rewrite firstn_map, firstn_seq_le.
Qed.

(** X1. In every reachable state the keys of the registry are the first
    [len] letters of A..J, in that order and without repetition: labels are
    handed out in order of first appearance and never reused. *)
Theorem reachable_labels_alphabet st :
  reachable st ->
  dict_keys (speaker_embeddings st) =
    firstn (dict_len (speaker_embeddings st)) alphabet /\
  NoDup (dict_keys (speaker_embeddings st)).
Proof.
  intros Hreach. destruct (reachable_ok st Hreach) as (Hlab & Hlen & _).
  unfold MAX_SPEAKERS in Hlen. split.
  - rewrite Hlab. now apply labels_prefix_of_alphabet.
  - apply labels_in_order_NoDup; [exact Hlab|lia].
Qed.

Lemma outcome_nonempty e st out st' :
  outcome e st (out, st') ->
  Forall (fun item => 1 <= List.length (snd item)) (speaker_embeddings st) ->
  Forall (fun item => 1 <= List.length (snd item)) (speaker_embeddings st').
Proof.
  intros Hout Hd. inversion Hout; subst; simpl; try assumption.
  - repeat constructor.
  - match goal with H : speaker_embeddings st = _ |- _ => rewrite H in Hd end.
    apply Forall_app in Hd. destruct Hd as [Hpre Hrest].
    inversion Hrest; subst. apply Forall_app. split; [assumption|].
    constructor; [|assumption]. simpl in *.
    destruct (List.length refs <? 10); [|assumption].
    rewrite length_app. simpl. lia.
  - apply Forall_app. split; [assumption|]. repeat constructor.
Qed.

(** X2. In every reachable state every identity has at least one reference
    embedding, so [np.mean] is never taken of an empty list. *)
Theorem reachable_reference_sets_nonempty st :
  reachable st ->
  Forall (fun item => 1 <= List.length (snd item)) (speaker_embeddings st).
Proof.
  induction 1 as [|emb st Hreach IH|st _ _]; try constructor.
  destruct emb as [e|]; [|exact IH].
  pose proof (detect_speaker_outcome e st (reachable_ok st Hreach)) as Hout.
  destruct (detect_speaker (Some e) st) as [out st'].
  exact (outcome_nonempty e st out st' Hout IH).
Qed.

Lemma outcome_current_known e st out st' :
  registry_ok (speaker_embeddings st) ->
  outcome e st (out, st') ->
  ((speaker_embeddings st = [] /\ current_speaker st = "A"%string) \/
   exists refs, dict_get (current_speaker st) (speaker_embeddings st) = Some refs) ->
  (speaker_embeddings st' = [] /\ current_speaker st' = "A"%string) \/
  exists refs, dict_get (current_speaker st') (speaker_embeddings st') = Some refs.
Proof.
  intros (Hlab & Hlen & _) Hout Hcur. unfold MAX_SPEAKERS in Hlen.
  inversion Hout; subst; try assumption; right; simpl.
  - now exists [e].
  - eexists. now apply dict_get_here.
  - eexists. apply dict_get_here. apply nth_label_fresh; [assumption|lia].
Qed.

(** X3. In every reachable state the current speaker, which is what
    [detect_speaker(None)] answers, is a label of the registry, or "A"
    while the registry is still empty. *)
Theorem reachable_current_speaker_known st :
  reachable st ->
  (speaker_embeddings st = [] /\ current_speaker st = "A"%string) \/
  exists refs, dict_get (current_speaker st) (speaker_embeddings st) = Some refs.
Proof.
  induction 1 as [|emb st Hreach IH|st _ _]; [now left| |now left].
  destruct emb as [e|]; [|exact IH].
  pose proof (detect_speaker_outcome e st (reachable_ok st Hreach)) as Hout.
  destruct (detect_speaker (Some e) st) as [out st'].
  exact (outcome_current_known e st out st' (reachable_ok st Hreach) Hout IH).
Qed.

Lemma outcome_extends e st out st' (k : string) (refs : list ndarray) :
  registry_ok (speaker_embeddings st) ->
  outcome e st (out, st') ->
  dict_get k (speaker_embeddings st) = Some refs ->
  dict_get k (speaker_embeddings st') = Some refs \/
  (out = Ret (Some k) /\ List.length refs < 10 /\
   dict_get k (speaker_embeddings st') = Some (refs ++ [e])).
Proof.
  intros (Hlab & Hlen & _) Hout Hget. unfold MAX_SPEAKERS in Hlen.
  inversion Hout as [Hd|pre post k0 refs0 Hd Hpre| | |]; subst; simpl; try (now left).
  - rewrite Hd in Hget. discriminate.
  - destruct (String.eqb k k0) eqn:E.
    + apply String.eqb_eq in E. subst k0.
      rewrite Hd, dict_get_here in Hget by assumption. injection Hget as ->.
      rewrite dict_get_here by assumption.
      destruct (List.length refs <? 10) eqn:Hroom; [|now left].
      apply Nat.ltb_lt in Hroom. right. repeat split; [assumption].
    + apply String.eqb_neq in E. left.
      rewrite (dict_get_other_here k k0 refs0); [|assumption].
      now rewrite <- Hd.
  - left. now apply dict_get_app_l.
Qed.

Lemma outcome_keys e st out st' :
  outcome e st (out, st') ->
  exists news, dict_keys (speaker_embeddings st') = dict_keys (speaker_embeddings st) ++ news.
Proof.
  intros Hout.
  inversion Hout as [Hd|pre post k0 refs0 Hd Hpre| | |]; subst; simpl.
  - rewrite Hd. now exists ["A"%string].
  - exists []. rewrite Hd, app_nil_r. unfold dict_keys. now rewrite !map_app.
  - eexists. now rewrite dict_keys_app.
  - exists []. now rewrite app_nil_r.
  - exists []. now rewrite app_nil_r.
Qed.

(** X4. Along any run of calls from a reachable state, without a reset,
    nothing recorded is lost: the labels of the registry stay, in their
    order, with new ones only added at the end, and every reference set
    keeps its embeddings, with new ones only added at the end. *)
Theorem attribute_all_keeps_identities st :
  reachable st ->
  forall embs,
    (exists news,
        dict_keys (speaker_embeddings (attribute_all embs st)) =
        dict_keys (speaker_embeddings st) ++ news) /\
    (forall k refs,
        dict_get k (speaker_embeddings st) = Some refs ->
        exists more,
          dict_get k (speaker_embeddings (attribute_all embs st)) = Some (refs ++ more)).
Proof.
  intros Hreach embs. revert st Hreach.
  induction embs as [|emb embs IH]; intros st Hreach.
  - split; [exists []; now rewrite app_nil_r|].
    intros k refs Hget. exists []. now rewrite app_nil_r.
  - change (attribute_all (emb :: embs) st)
      with (attribute_all embs (snd (detect_speaker emb st))).
    assert (Hnext : reachable (snd (detect_speaker emb st))) by now constructor.
    destruct (IH _ Hnext) as [[news Hkeys] Hsets]. clear IH.
    destruct emb as [e|]; [|split; [now exists news|exact Hsets]].
    pose proof (detect_speaker_outcome e st (reachable_ok st Hreach)) as Hout.
    destruct (detect_speaker (Some e) st) as [out st'].
    cbn [snd] in *.
    split.
    + destruct (outcome_keys e st out st' Hout) as [news1 Hk1].
      exists (news1 ++ news). now rewrite Hkeys, Hk1, app_assoc.
    + intros k refs Hget.
      destruct (outcome_extends e st out st' k refs (reachable_ok st Hreach) Hout Hget)
        as [Hsame|(_ & _ & Hmore)].
      * now apply Hsets.
      * destruct (Hsets k _ Hmore) as [more Hfinal].
        exists ([e] ++ more). now rewrite app_assoc.
Qed.

(** X5. On embeddings of one common shape, which is what the type
    [ndarray] holds and what [np.dot] needs not to raise, and when
    [-1 >= SIMILARITY_THRESHOLD] is false, as it is for floats, no call of
    [detect_speaker] in a reachable state raises: neither the lookup
    [speaker_embeddings[best_speaker]] nor [chr] can fail. *)
Theorem detect_speaker_never_raises st :
  floor_below_threshold ->
  reachable st ->
  forall emb, exists out, fst (detect_speaker emb st) = Ret out.
Proof.
  intros Hlaw Hreach emb.
  destruct (reachable_ok st Hreach) as (_ & Hlen & _). unfold MAX_SPEAKERS in Hlen.
  destruct emb as [e|]; [|simpl; eauto].
  unfold detect_speaker.
  destruct (dict_empty (speaker_embeddings st)); [simpl; eauto|].
  destruct (best_match e (speaker_embeddings st)) as [best_speaker best_similarity] eqn:Hbm.
  destruct (ge best_similarity SIMILARITY_THRESHOLD) eqn:Hge.
  - unfold best_match in Hbm.
    destruct (scan_result e (speaker_embeddings st) (None, minus_one))
      as [H|(k & refs & Hin & H)]; rewrite H in Hbm.
    + injection Hbm as <- <-. unfold floor_below_threshold in Hlaw. congruence.
    + injection Hbm as <- <-. simpl.
      destruct (dict_get_of_key k (speaker_embeddings st)) as [refs' Hget].
      { unfold dict_keys. apply in_map_iff. now exists (k, refs). }
      rewrite Hget. simpl. eauto.
  - rewrite py_chr_label by lia.
    destruct (dict_len (speaker_embeddings st) <? 10); simpl; eauto.
Qed.

(** X6. In a reachable state, and with [-1 >= SIMILARITY_THRESHOLD] false,
    [detect_speaker] answers an embedding with Python's [None] exactly
    when the registry holds MAX_SPEAKERS identities and no identity scores
    strictly above -1. *)
Theorem no_label_only_at_cap e st :
  floor_below_threshold ->
  reachable st ->
  (fst (detect_speaker (Some e) st) = Ret None <->
   dict_len (speaker_embeddings st) = MAX_SPEAKERS /\
   Forall (fun item => gt (avg_similarity e (snd item)) minus_one = false)
          (speaker_embeddings st)).
Proof.
  intros Hlaw Hreach.
  destruct (reachable_ok st Hreach) as (_ & Hlen & _).
  unfold MAX_SPEAKERS in *. unfold detect_speaker. split.
  - destruct (dict_empty (speaker_embeddings st)); [discriminate|].
    destruct (best_match e (speaker_embeddings st)) as [best_speaker best_similarity] eqn:Hbm.
    destruct (ge best_similarity SIMILARITY_THRESHOLD).
    + destruct (getitem (speaker_embeddings st) best_speaker) as [[k refs]|x];
        discriminate.
    + rewrite py_chr_label by lia.
      destruct (dict_len (speaker_embeddings st) <? 10) eqn:Hroom; [discriminate|].
      apply Nat.ltb_ge in Hroom. simpl. intros [= ->].
      split; [lia|]. apply scan_none.
      unfold best_match in Hbm. now rewrite Hbm.
  - intros [Hfull Hnone].
    rewrite dict_empty_false by (intros H; rewrite H in Hfull; discriminate).
    unfold best_match. rewrite scan_stable by assumption.
    unfold floor_below_threshold in Hlaw. rewrite Hlaw.
    rewrite py_chr_label by lia. now rewrite Hfull.
Qed.

(** X7. In a reachable state, a label that [detect_speaker] returns for an
    embedding is registered afterwards; and it is the current speaker
    afterwards, unless the call was the fallback on a full registry, which
    changes nothing. *)
Theorem returned_label_is_registered e st (k : string) st' :
  reachable st ->
  detect_speaker (Some e) st = (Ret (Some k), st') ->
  (exists refs, dict_get k (speaker_embeddings st') = Some refs) /\
  (current_speaker st' = k \/
   (st' = st /\ dict_len (speaker_embeddings st) = MAX_SPEAKERS)).
Proof.
  intros Hreach Hds.
  pose proof (reachable_ok st Hreach) as Hok.
  pose proof (detect_speaker_outcome e st Hok) as Hout. rewrite Hds in Hout.
  destruct Hok as (Hlab & Hlen & _). unfold MAX_SPEAKERS in Hlen.
  inversion Hout as [Hd|pre post k0 refs0 Hd Hpre|Hne Hroom|Hfull|]; subst;
    cbn [speaker_embeddings current_speaker].
  - split; [now exists [e]|now left].
  - split; [|now left]. eexists. now apply dict_get_here.
  - split; [|now left]. eexists. apply dict_get_here.
    apply nth_label_fresh; [assumption|lia].
  - split; [|right; split; [reflexivity|exact Hfull]].
    match goal with
    | H : fst (best_match e ?d) = Some k |- _ =>
        destruct (best_match e d) as [b s] eqn:Hbm; simpl in H; subst b;
        destruct (best_match_key e d k s Hbm) as (refs & Hin & _)
    end.
    apply dict_get_of_key. unfold dict_keys. apply in_map_iff.
    exists (k, refs). split; [reflexivity|exact Hin].
Qed.

(** X8. In a reachable state, a call of [detect_speaker] changes the
    reference set of at most one identity, the one whose label it returns,
    and only by appending the embedding of the call to a set that holds
    fewer than MAX_REFERENCE_SAMPLES. *)
Theorem only_returned_identity_changes emb st out st' (k : string) (refs : list ndarray) :
  reachable st ->
  detect_speaker emb st = (out, st') ->
  dict_get k (speaker_embeddings st) = Some refs ->
  dict_get k (speaker_embeddings st') <> Some refs ->
  out = Ret (Some k) /\
  List.length refs < MAX_REFERENCE_SAMPLES /\
  exists e, emb = Some e /\ dict_get k (speaker_embeddings st') = Some (refs ++ [e]).
Proof.
  intros Hreach Hds Hget Hchanged.
  destruct emb as [e|]; [|injection Hds as <- <-; contradiction].
  pose proof (reachable_ok st Hreach) as Hok.
  pose proof (detect_speaker_outcome e st Hok) as Hout. rewrite Hds in Hout.
  destruct (outcome_extends e st out st' k refs Hok Hout Hget)
    as [Hsame|(Hret & Hroom & Hmore)]; [contradiction|].
  split; [exact Hret|]. split; [exact Hroom|].
  exists e. split; [reflexivity|exact Hmore].
Qed.

End AttributorMore.

(** ** More on the pipeline *)

Section PipelineMore.

Context {NP : NumPy} {CO : Collaborators}.

(** X9. [get_voice_embedding] returns an embedding exactly when the encoder
    is loaded, the file decodes to at least 1600 samples, preprocessing
    succeeds and leaves at least 1600 samples, and the encoder returns that
    embedding; in every other case, failures included, it returns [None]. *)
Theorem get_voice_embedding_some (g : models) (audio_path : audio_file) (emb : ndarray) :
  get_voice_embedding g audio_path = Some emb <->
  exists encoder wav wav',
    voice_encoder g = Some encoder /\
    decode_audio audio_path = Ret wav /\ 1600 <= wav_len wav /\
    preprocess_wav wav = Ret wav' /\ 1600 <= wav_len wav' /\
    encoder wav' = Ret emb.
Proof.
  unfold get_voice_embedding, load_audio_for_embedding. split.
  - destruct (voice_encoder g) as [encoder|]; [|discriminate].
    destruct (decode_audio audio_path) as [wav|]; [|discriminate].
    destruct (Nat.ltb_spec (wav_len wav) 1600) as [|Hlong]; [discriminate|].
    destruct (preprocess_wav wav) as [wav'|] eqn:Hpre; [|discriminate].
    destruct (Nat.ltb_spec (wav_len wav') 1600) as [|Hlong']; [discriminate|].
    destruct (encoder wav') as [emb'|] eqn:Henc; [|discriminate].
    intros [= ->]. exists encoder, wav, wav'. repeat split; assumption.
  - intros (encoder & wav & wav' & -> & -> & Hlong & Hpre & Hlong' & Henc).
    apply Nat.ltb_ge in Hlong, Hlong'.
    now rewrite Hlong, Hpre, Hlong', Henc.
Qed.

(** X10. With both models loaded, a chunk that decodes to fewer than 1600
    samples, before or after preprocessing, is not embedded: the response
    carries the current speaker of before the call, the text that Whisper
    returns for the chunk, and the unchanged size of the registry; the
    attributor's state is unchanged. *)
Theorem short_chunk_echoes_speaker (g : models) (audio_base64 language : string)
    (st : state) (tmp_path : audio_file) (wav : waveform)
    (encoder : VoiceEncoder) (whisper : WhisperModel)
    (segments : list string) (info_language : string) :
  is_ready g = true ->
  voice_encoder g = Some encoder ->
  whisper_model g = Some whisper ->
  b64decode audio_base64 = Ret tmp_path ->
  decode_audio tmp_path = Ret wav ->
  (wav_len wav < 1600 \/
   exists wav', preprocess_wav wav = Ret wav' /\ wav_len wav' < 1600) ->
  whisper tmp_path (language_arg language) = Ret (segments, info_language) ->
  transcribe_audio g audio_base64 language st =
    (ROk (String.concat " " (map str_strip segments)) (Some (current_speaker st))
         info_language (dict_len (speaker_embeddings st)), st).
Proof.
  intros Hready Henc Hw Hb64 Hdec Hshort Hstt.
  assert (Hemb : get_voice_embedding g tmp_path = None).
  { unfold get_voice_embedding, load_audio_for_embedding. rewrite Henc, Hdec.
    destruct (Nat.ltb_spec (wav_len wav) 1600) as [|Hlong]; [reflexivity|].
    destruct Hshort as [Hshort|(wav' & Hpre & Hshort)]; [lia|].
    rewrite Hpre. apply Nat.ltb_lt in Hshort. now rewrite Hshort. }
  unfold transcribe_audio.
  rewrite Hready, Hb64, Henc, Hemb, Hw. simpl. now rewrite Hstt.
Qed.

(** X11. The attribution is not undone when transcription fails: with both
    models loaded, if Whisper raises after [detect_speaker] has returned,
    the response is the error [str(e)] and the attributor is left in the
    state that [detect_speaker] produced. *)
Theorem whisper_failure_keeps_attribution (g : models) (audio_base64 language : string)
    (st : state) (tmp_path : audio_file) (encoder : VoiceEncoder)
    (whisper : WhisperModel) (speaker : option string) (y : exn) :
  is_ready g = true ->
  voice_encoder g = Some encoder ->
  whisper_model g = Some whisper ->
  b64decode audio_base64 = Ret tmp_path ->
  fst (detect_speaker (get_voice_embedding g tmp_path) st) = Ret speaker ->
  whisper tmp_path (language_arg language) = Raise y ->
  transcribe_audio g audio_base64 language st =
    (RError (exn_str y), snd (detect_speaker (get_voice_embedding g tmp_path) st)).
Proof.
  intros Hready Henc Hw Hb64 Hdet Hstt.
  unfold transcribe_audio. rewrite Hready, Hb64, Henc. simpl.
  destruct (detect_speaker (get_voice_embedding g tmp_path) st) as [detected st1].
  simpl in Hdet. subst detected. rewrite Hw, Hstt. reflexivity.
Qed.

(** The state after [transcribe_audio] is the one before, or the one that
    a call of [detect_speaker] leaves. *)
Lemma transcribe_audio_state (g : models) (audio_base64 language : string) (st : state) :
  snd (transcribe_audio g audio_base64 language st) = st \/
  exists emb, snd (transcribe_audio g audio_base64 language st) =
              snd (detect_speaker emb st).
Proof.
  unfold transcribe_audio.
  destruct (is_ready g); simpl; [|now left].
  destruct (b64decode audio_base64) as [tmp_path|]; [|now left].
  destruct (voice_encoder g).
  - right. exists (get_voice_embedding g tmp_path).
    destruct (detect_speaker (get_voice_embedding g tmp_path) st) as [[speaker|x] st1];
      [|reflexivity].
    destruct (whisper_model g) as [whisper|]; [|reflexivity].
    now destruct (whisper tmp_path (language_arg language)) as [[segments l]|].
  - left. destruct (whisper_model g) as [whisper|]; [|reflexivity].
    now destruct (whisper tmp_path (language_arg language)) as [[segments l]|].
Qed.

Lemma transcribe_audio_reachable (g : models) (audio_base64 language : string) (st : state) :
  reachable st -> reachable (snd (transcribe_audio g audio_base64 language st)).
Proof.
  intros Hreach.
  destruct (transcribe_audio_state g audio_base64 language st) as [H|[emb H]];
    rewrite H; [assumption|now constructor].
Qed.

Lemma transcribe_audio_total (g : models) (audio_base64 language : string) (st : state)
    (text : string) (speaker : option string) (l : string) (n : nat) :
  fst (transcribe_audio g audio_base64 language st) = ROk text speaker l n ->
  n = dict_len (speaker_embeddings (snd (transcribe_audio g audio_base64 language st))).
Proof.
  unfold transcribe_audio.
  destruct (is_ready g); simpl; [|discriminate].
  destruct (b64decode audio_base64) as [tmp_path|]; [|discriminate].
  destruct (match voice_encoder g with
            | Some _ => detect_speaker (get_voice_embedding g tmp_path) st
            | None => (Ret None, st)
            end) as [[sp|x] st1]; [|discriminate].
  destruct (whisper_model g) as [whisper|]; [|discriminate].
  destruct (whisper tmp_path (language_arg language)) as [[segments l']|]; [|discriminate].
  simpl. now intros [= _ _ _ <-].
Qed.

(** X12. Whatever the models and the chunk, [transcribe_audio] takes a
    reachable state of the attributor to a reachable one; and the
    [total_speakers] of a successful response is the size of the registry
    after the call, which is at most MAX_SPEAKERS. *)
Theorem transcribe_audio_keeps_reachable (g : models) (audio_base64 language : string)
    (st : state) :
  reachable st ->
  reachable (snd (transcribe_audio g audio_base64 language st)) /\
  forall text speaker l n,
    fst (transcribe_audio g audio_base64 language st) = ROk text speaker l n ->
    n = dict_len (speaker_embeddings (snd (transcribe_audio g audio_base64 language st))) /\
    n <= MAX_SPEAKERS.
Proof.
  intros Hreach.
  pose proof (transcribe_audio_reachable g audio_base64 language st Hreach) as Hafter.
  split; [exact Hafter|].
  intros text speaker l n Hok.
  pose proof (transcribe_audio_total g audio_base64 language st text speaker l n Hok) as Hn.
  split; [exact Hn|].
  destruct (reachable_ok _ Hafter) as (_ & Hlen & _). now rewrite Hn.
Qed.

Lemma loaded_invariant (g : models) :
  loaded g ->
  (is_ready g = true <-> exists whisper, whisper_model g = Some whisper) /\
  ((exists encoder, voice_encoder g = Some encoder) -> is_ready g = true).
Proof.
  induction 1 as [|new_whisper new_encoder g _ [IHw IHe]].
  - simpl. split; [split; [discriminate|intros [w Hw]; discriminate]|].
    intros [enc Henc]. discriminate.
  - destruct new_whisper as [w|x]; simpl.
    + split; [split; eauto|reflexivity].
    + split; assumption.
Qed.

(** X13. Whatever calls of [load_models] have run since startup, the
    system is ready exactly when a Whisper model is held, and an encoder is
    only ever held by a ready system: a failure to load Resemblyzer never
    keeps the system from becoming ready, a failure of Whisper does. *)
Theorem loaded_ready_iff_whisper (g : models) :
  loaded g ->
  (is_ready g = true <-> exists whisper, whisper_model g = Some whisper) /\
  ((exists encoder, voice_encoder g = Some encoder) -> is_ready g = true) /\
  (forall whisper x, is_ready (load_models (Ret whisper) (Raise x) g) = true) /\
  (forall x new_encoder,
      is_ready (load_models (Raise x) new_encoder g) = is_ready g).
Proof.
  intros Hg. destruct (loaded_invariant g Hg) as [Hw He].
  repeat split; try apply Hw; try exact He.
Qed.

End PipelineMore.

(** ** The HTTP handler *)

Section HandlerFacts.

Context {NP : NumPy} {CO : Collaborators} {JS : Json} {W : Wire}.

Lemma do_POST_reachable (req : request) (g : models) (st : state) :
  reachable st -> reachable (snd (do_POST req g st)).
Proof.
  intros Hreach. unfold do_POST.
  destruct (read_body req) as [body|x]; [|exact Hreach].
  destruct (String.eqb (req_path req) "/transcribe").
  - destruct (json_loads body) as [data|x]; [|exact Hreach].
    pose proof (transcribe_audio_reachable g
                  (dict_get_default "audio" ""%string data)
                  (dict_get_default "language" "es"%string data) st Hreach) as H.
    destruct (transcribe_audio g _ _ st) as [result st']. exact H.
  - destruct (String.eqb (req_path req) "/reset"); [|exact Hreach].
    simpl. now constructor.
Qed.

Lemma serve_reachable (g : models) (requests : list request) (st : state) :
  reachable st -> reachable (serve g requests st).
Proof.
  revert st. induction requests as [|r requests IH]; intros st Hreach; [exact Hreach|].
  change (serve g (r :: requests) st)
    with (serve g requests (snd (do_POST r g st))).
  apply IH. now apply do_POST_reachable.
Qed.

(** X14. After any sequence of POST requests to a server started afresh,
    whatever their paths, headers and bodies and whatever models are
    loaded, the registry holds at most MAX_SPEAKERS identities of at most
    MAX_REFERENCE_SAMPLES embeddings each, labelled by the first letters
    of A..J, and [/status] reports that number of speakers. *)
Theorem serve_within_caps (g : models) (requests : list request) :
  status_speakers (status g (serve g requests initial_state)) <= MAX_SPEAKERS /\
  Forall (fun item => List.length (snd item) <= MAX_REFERENCE_SAMPLES)
         (speaker_embeddings (serve g requests initial_state)) /\
  dict_keys (speaker_embeddings (serve g requests initial_state)) =
    firstn (status_speakers (status g (serve g requests initial_state))) alphabet.
Proof.
  pose proof (serve_reachable g requests initial_state reach_init) as Hreach.
  destruct (reachable_ok _ Hreach) as (Hlab & Hlen & Hrefs).
  split; [exact Hlen|]. split; [exact Hrefs|].
  simpl. rewrite Hlab. apply labels_prefix_of_alphabet. exact Hlen.
Qed.




End HandlerFacts.

(** ** The page *)

Lemma string_append_nil_r (s : string) : (s ++ "")%string = s.
Proof. induction s as [|c s IH]; simpl; [reflexivity|now rewrite IH]. Qed.

Lemma string_append_assoc (a b c : string) :
  ((a ++ b) ++ c)%string = (a ++ (b ++ c))%string.
Proof. induction a as [|x a IH]; simpl; [reflexivity|now rewrite IH]. Qed.

Lemma concat_empty_cons (x : string) (l : list string) :
  String.concat "" (x :: l) = (x ++ String.concat "" l)%string.
Proof.
  destruct l as [|y l]; simpl; [now rewrite string_append_nil_r|reflexivity].
Qed.

Lemma js_strict_neq_false (a b : option string) :
  js_strict_neq a b = false -> a = b.
Proof.
  destruct a as [x|], b as [y|]; simpl; try discriminate; [|reflexivity].
  intros H. apply negb_false_iff, String.eqb_eq in H. now subst.
Qed.

Lemma append_all_same_speaker (k : string) (texts : list string) (p : page) :
  lastSpeaker p = Some k ->
  append_all (map (fun t => (t, Some k)) texts) p =
  mkPage (fullText p ++ String.concat "" (map (fun t => t ++ " ") texts))%string (Some k).
Proof.
  revert p. induction texts as [|t texts IH]; intros p Hlast.
  - simpl. rewrite string_append_nil_r. destruct p; simpl in *. now subst.
  - change (append_all (map (fun t => (t, Some k)) (t :: texts)) p)
      with (append_all (map (fun t => (t, Some k)) texts)
                       (appendTranscription t (Some k) p)).
    assert (Hstep : appendTranscription t (Some k) p =
                    mkPage (fullText p ++ (t ++ " "))%string (Some k)).
    { unfold appendTranscription. rewrite Hlast. simpl.
      rewrite String.eqb_refl. simpl. rewrite andb_false_r. now rewrite Hlast. }
    rewrite Hstep, IH by reflexivity. simpl fullText.
    change (map (fun t0 => (t0 ++ " ")%string) (t :: texts))
      with ((t ++ " ")%string :: map (fun t0 => (t0 ++ " ")%string) texts).
    now rewrite concat_empty_cons, string_append_assoc.
Qed.

(** X16. A run of chunks with one and the same non-empty speaker label
    adds to the transcript at most one speaker tag, before the first text
    and only when the label differs from the last speaker shown; then the
    texts, each followed by a space. The last speaker becomes that label. *)
Theorem same_speaker_one_tag (k : string) (texts : list string) (p : page) :
  k <> ""%string ->
  texts <> [] ->
  append_all (map (fun t => (t, Some k)) texts) p =
  mkPage (fullText p
          ++ (if js_strict_neq (Some k) (lastSpeaker p) then speaker_tag k else "")
          ++ String.concat "" (map (fun t => t ++ " ") texts))%string
         (Some k).
Proof.
  intros Hk Htexts. destruct texts as [|t texts]; [contradiction|].
  change (append_all (map (fun t => (t, Some k)) (t :: texts)) p)
    with (append_all (map (fun t => (t, Some k)) texts)
                     (appendTranscription t (Some k) p)).
  change (map (fun t0 => (t0 ++ " ")%string) (t :: texts))
    with ((t ++ " ")%string :: map (fun t0 => (t0 ++ " ")%string) texts).
  rewrite concat_empty_cons.
  assert (Htruthy : js_truthy (Some k) = true) by (destruct k; [contradiction|reflexivity]).
  destruct (js_strict_neq (Some k) (lastSpeaker p)) eqn:Hneq.
  - assert (Hstep : appendTranscription t (Some k) p =
                    mkPage ((fullText p ++ speaker_tag k) ++ (t ++ " "))%string (Some k))
      by (unfold appendTranscription; now rewrite Htruthy, Hneq).
    rewrite Hstep, append_all_same_speaker by reflexivity. simpl fullText.
    now rewrite !string_append_assoc.
  - assert (Hlast : lastSpeaker p = Some k)
      by (symmetry; now apply js_strict_neq_false).
    assert (Hstep : appendTranscription t (Some k) p =
                    mkPage (fullText p ++ (t ++ " "))%string (Some k))
      by (unfold appendTranscription; rewrite Htruthy, Hneq; simpl; now rewrite Hlast).
    rewrite Hstep, append_all_same_speaker by reflexivity. simpl.
    now rewrite !string_append_assoc.
Qed.

(** X17. Chunks that come without a speaker ([null], as when Resemblyzer
    is not loaded, or an empty label) never add a speaker tag and never
    change the last speaker shown: the transcript only grows by the texts,
    each followed by a space. *)
Theorem no_speaker_no_tag (chunks : list (string * option string)) (p : page) :
  Forall (fun c => js_truthy (snd c) = false) chunks ->
  append_all chunks p =
  mkPage (fullText p ++ String.concat "" (map (fun c => fst c ++ " ") chunks))%string
         (lastSpeaker p).
Proof.
  intros Hall. revert p. induction Hall as [|[t sp] chunks Hsp _ IH]; intros p.
  - simpl. rewrite string_append_nil_r. now destruct p.
  - change (append_all ((t, sp) :: chunks) p)
      with (append_all chunks (appendTranscription t sp p)).
    assert (Hstep : appendTranscription t sp p =
                    mkPage (fullText p ++ (t ++ " "))%string (lastSpeaker p)).
    { unfold appendTranscription. simpl in Hsp.
      destruct sp as [s|]; [|reflexivity]. now rewrite Hsp. }
    rewrite Hstep, IH. simpl fullText. simpl lastSpeaker.
    change (map (fun c => (fst c ++ " ")%string) ((t, sp) :: chunks))
      with ((t ++ " ")%string :: map (fun c => (fst c ++ " ")%string) chunks).
    now rewrite concat_empty_cons, string_append_assoc.
Qed.

(** ** The further properties on the test data *)

Section MoreWitnesses.

Import Binary64 Demo DemoHttp.

Lemma one_speaker_reachable : reachable one_speaker.
Proof. apply reachable_attribute_all. constructor. Qed.

Lemma two_speakers_reachable : reachable two_speakers.
Proof. apply reachable_attribute_all. constructor. Qed.

Lemma ten_speakers_reachable : reachable ten_speakers.
Proof. apply reachable_attribute_all. constructor. Qed.

Lemma reachable_labels_alphabet_witness :
  dict_keys (speaker_embeddings two_speakers) =
    firstn (dict_len (speaker_embeddings two_speakers)) alphabet /\
  NoDup (dict_keys (speaker_embeddings two_speakers)).
Proof.
  apply (reachable_labels_alphabet (NP := numpy 2) two_speakers).
  exact two_speakers_reachable.
Defined.

Lemma reachable_reference_sets_nonempty_witness :
  Forall (fun item => 1 <= List.length (snd item)) (speaker_embeddings two_speakers).
Proof.
  apply (reachable_reference_sets_nonempty (NP := numpy 2) two_speakers).
  exact two_speakers_reachable.
Defined.

Lemma reachable_current_speaker_known_witness :
  (speaker_embeddings ten_speakers = [] /\ current_speaker ten_speakers = "A"%string) \/
  exists refs,
    dict_get (current_speaker ten_speakers) (speaker_embeddings ten_speakers) = Some refs.
Proof.
  apply (reachable_current_speaker_known (NP := numpy 10) ten_speakers).
  exact ten_speakers_reachable.
Defined.

Lemma attribute_all_keeps_identities_witness :
  (exists news,
      dict_keys (speaker_embeddings (attribute_all [Some E3; Some E2] one_speaker)) =
      dict_keys (speaker_embeddings one_speaker) ++ news) /\
  (forall k refs,
      dict_get k (speaker_embeddings one_speaker) = Some refs ->
      exists more,
        dict_get k (speaker_embeddings (attribute_all [Some E3; Some E2] one_speaker)) =
        Some (refs ++ more)).
Proof.
  apply (attribute_all_keeps_identities (NP := numpy 2) one_speaker).
  exact one_speaker_reachable.
Defined.

Lemma detect_speaker_never_raises_witness :
  exists out, fst (detect_speaker (Some zero10) ten_speakers) = Ret out.
Proof.
  apply (detect_speaker_never_raises (NP := numpy 10) ten_speakers
           (binary64_floor_below_threshold 10) ten_speakers_reachable (Some zero10)).
Defined.

Lemma no_label_only_at_cap_witness :
  fst (detect_speaker (Some zero10) ten_speakers) = Ret None <->
  dict_len (speaker_embeddings ten_speakers) = MAX_SPEAKERS /\
  Forall (fun item => gt (avg_similarity zero10 (snd item)) minus_one = false)
         (speaker_embeddings ten_speakers).
Proof.
  apply (no_label_only_at_cap (NP := numpy 10) zero10 ten_speakers).
  - exact (binary64_floor_below_threshold _).
  - exact ten_speakers_reachable.
Defined.

Lemma returned_label_is_registered_witness :
  (exists refs,
      dict_get "B" (speaker_embeddings (snd (detect_speaker (Some E3) one_speaker))) =
      Some refs) /\
  (current_speaker (snd (detect_speaker (Some E3) one_speaker)) = "B"%string \/
   (snd (detect_speaker (Some E3) one_speaker) = one_speaker /\
    dict_len (speaker_embeddings one_speaker) = MAX_SPEAKERS)).
Proof.
  apply (returned_label_is_registered (NP := numpy 2) E3 one_speaker "B"%string).
  - exact one_speaker_reachable.
  - vm_compute. reflexivity.
Defined.

Lemma only_returned_identity_changes_witness :
  fst (detect_speaker (Some E2) one_speaker) = Ret (Some "A"%string) /\
  List.length [E1] < MAX_REFERENCE_SAMPLES /\
  exists e : @ndarray (numpy 2),
    @Some (@ndarray (numpy 2)) E2 = Some e /\
    dict_get "A" (speaker_embeddings (snd (detect_speaker (Some E2) one_speaker))) =
    Some ([E1] ++ [e]).
Proof.
  apply (only_returned_identity_changes (NP := numpy 2) (Some E2) one_speaker
           (fst (@detect_speaker (numpy 2) (Some E2) one_speaker))
           (snd (@detect_speaker (numpy 2) (Some E2) one_speaker)) "A"%string [E1]).
  - exact one_speaker_reachable.
  - vm_compute. reflexivity.
  - vm_compute. reflexivity.
  - vm_compute. intros H. discriminate H.
Defined.

Lemma short_chunk_echoes_speaker_witness :
  @transcribe_audio (numpy 2) short_collaborators short_models "click" "es" two_speakers =
  (ROk "eh" (Some "A"%string) "es" 2, two_speakers).
Proof.
  assert (Hshort : @wav_len short_collaborators 800 < 1600) by (simpl; lia).
  etransitivity.
  - apply (short_chunk_echoes_speaker (NP := numpy 2) (CO := short_collaborators)
             short_models "click" "es" two_speakers "click"%string 800
             (fun _ => Ret E1) plain_whisper ["eh"%string] "es"%string);
      try reflexivity.
    left. exact Hshort.
  - vm_compute. reflexivity.
Defined.

Lemma whisper_failure_keeps_attribution_witness :
  transcribe_audio failing_models "speech" "es" initial_state =
    (RError "out of memory",
     snd (detect_speaker (get_voice_embedding failing_models "speech"%string)
                         initial_state)) /\
  dict_len (speaker_embeddings
              (snd (transcribe_audio failing_models "speech" "es" initial_state))) = 1.
Proof.
  split; [|vm_compute; reflexivity].
  apply (whisper_failure_keeps_attribution (NP := numpy 2) (CO := collaborators)
           failing_models "speech" "es" initial_state "speech"%string
           encoder failing_whisper (Some "A"%string) (Failure "out of memory"));
    vm_compute; reflexivity.
Defined.

Lemma transcribe_audio_keeps_reachable_witness :
  reachable (snd (transcribe_audio both_models "speech" "es" two_speakers)) /\
  forall text speaker l n,
    fst (transcribe_audio both_models "speech" "es" two_speakers) = ROk text speaker l n ->
    n = dict_len (speaker_embeddings
                    (snd (transcribe_audio both_models "speech" "es" two_speakers))) /\
    n <= MAX_SPEAKERS.
Proof.
  apply (transcribe_audio_keeps_reachable (NP := numpy 2) (CO := collaborators)
           both_models "speech" "es" two_speakers).
  exact two_speakers_reachable.
Defined.

Lemma loaded_ready_iff_whisper_witness :
  (is_ready whisper_only = true <-> exists w, whisper_model whisper_only = Some w) /\
  ((exists enc, voice_encoder whisper_only = Some enc) -> is_ready whisper_only = true) /\
  (forall w x, is_ready (load_models (Ret w) (Raise x) whisper_only) = true) /\
  (forall x new_encoder,
      is_ready (load_models (Raise x) new_encoder whisper_only) = is_ready whisper_only).
Proof.
  apply (loaded_ready_iff_whisper (NP := numpy 2) (CO := collaborators) whisper_only).
  apply loaded_step. apply loaded_start.
Defined.

Lemma same_speaker_one_tag_witness :
  append_all [("hola", Some "A"); ("mundo", Some "A")]%string empty_page =
  mkPage (String (ascii_of_nat 10) "[A]: hola mundo ") (Some "A"%string).
Proof.
  etransitivity.
  - apply (same_speaker_one_tag "A" ["hola"; "mundo"]%string empty_page);
      discriminate.
  - reflexivity.
Defined.

Lemma no_speaker_no_tag_witness :
  append_all [("hola", None); ("mundo", Some "")]%string (mkPage "x " (Some "B"%string)) =
  mkPage "x hola mundo " (Some "B"%string).
Proof.
  etransitivity.
  - apply (no_speaker_no_tag [("hola", None); ("mundo", Some "")]%string
             (mkPage "x " (Some "B"%string))).
    repeat constructor.
  - reflexivity.
Defined.

(** The handler on the test data: a chunk is transcribed and attributed,
    a body without fields falls back on the defaults, a body that is not
    JSON is answered 500, a Content-Length that is not a number leaves the
    request unanswered and the reset undone, a reset empties the registry. *)
Example post_transcribe :
  do_POST (mkRequest "/transcribe" (Some "12"%string) "speech in es")
          both_models initial_state =
  (Answer 200 (PResult (ROk "hola mundo" (Some "A"%string) "es" 1)), one_speaker).
Proof. vm_compute. reflexivity. Qed.

Example post_defaults :
  do_POST (mkRequest "/transcribe" (Some "12"%string) "empty object")
          both_models two_speakers =
  (Answer 200 (PResult (RError "Invalid data found when processing input")),
   two_speakers).
Proof. vm_compute. reflexivity. Qed.

Example post_not_json :
  do_POST (mkRequest "/transcribe" (Some "6"%string) "<html>")
          both_models two_speakers =
  (Answer 500 (PError "Expecting value: line 1 column 1 (char 0)"), two_speakers).
Proof. vm_compute. reflexivity. Qed.

Example post_bad_length :
  do_POST (mkRequest "/reset" (Some "six"%string) "")
          both_models two_speakers =
  (NoAnswer (ValueError "invalid literal for int() with base 10"), two_speakers).
Proof. vm_compute. reflexivity. Qed.

Example post_reset_then_status :
  status both_models
    (serve both_models
       [mkRequest "/transcribe" (Some "12"%string) "speech in es";
        mkRequest "/reset" None ""] two_speakers) =
  mkStatus true "Ready" "base" true 0.
Proof. vm_compute. reflexivity. Qed.

End MoreWitnesses.

(** ** Server and page together *)

Section RecordingFacts.

Context {NP : NumPy} {CO : Collaborators} {J : JavaScript}.

Lemma transcribe_audio_without_encoder (g : models) (audio_base64 language : string)
    (st : state) :
  voice_encoder g = None ->
  snd (transcribe_audio g audio_base64 language st) = st /\
  forall text speaker l n,
    fst (transcribe_audio g audio_base64 language st) = ROk text speaker l n ->
    speaker = None.
Proof.
  intros Henc. unfold transcribe_audio. rewrite Henc.
  destruct (is_ready g); simpl; [|split; [reflexivity|discriminate]].
  destruct (b64decode audio_base64) as [tmp_path|]; [|split; [reflexivity|discriminate]].
  destruct (whisper_model g) as [whisper|]; [|split; [reflexivity|discriminate]].
  destruct (whisper tmp_path (language_arg language)) as [[segments l']|];
    [|split; [reflexivity|discriminate]].
  simpl. split; [reflexivity|]. now intros text speaker l n [= _ <- _ _].
Qed.

(** X18. While Resemblyzer is not loaded, a recording of any chunks leaves
    the attributor's state as it was and never puts a speaker tag on the
    page: the last speaker shown is the one of before, and the transcript
    is the one of before followed by exactly the texts of the successful
    responses that are not empty or blank, in order, each followed by a
    space. *)
Theorem recording_without_encoder (g : models) (chunks : list (string * string))
    (st : state) (p : page) :
  voice_encoder g = None ->
  recording g chunks (st, p) =
  (st,
   mkPage
     (fullText p ++
      String.concat ""
        (map (fun t => t ++ " ")
           (flat_map
              (fun chunk =>
                 match fst (transcribe_audio g (fst chunk) (snd chunk) st) with
                 | ROk text _ _ _ =>
                     if str_truthy text && str_truthy (js_trim text) then [text] else []
                 | RError _ => []
                 end)
              chunks)))%string
     (lastSpeaker p)).
Proof.
  intros Henc. revert p.
  induction chunks as [|chunk chunks IH]; intros p.
  - simpl. rewrite string_append_nil_r. now destruct p.
  - change (recording g (chunk :: chunks) (st, p))
      with (recording g chunks (record_chunk g (st, p) chunk)).
    unfold record_chunk. cbn [fst snd flat_map].
    destruct (transcribe_audio_without_encoder g (fst chunk) (snd chunk) st Henc)
      as [Hst Hnone].
    destruct (transcribe_audio g (fst chunk) (snd chunk) st) as [result st'].
    cbn [fst snd] in Hst, Hnone |- *. subst st'.
    destruct result as [msg|text speaker l n]; [exact (IH p)|].
    rewrite (Hnone text speaker l n eq_refl).
    unfold processAudio.
    destruct (str_truthy text && str_truthy (js_trim text)); [|exact (IH p)].
    rewrite IH. f_equal.
    change (([text] ++ ?l)) with (text :: l).
    unfold appendTranscription. cbn [fullText lastSpeaker].
    cbn [app map]. rewrite concat_empty_cons.
    now rewrite string_append_assoc.
Qed.

End RecordingFacts.

Section RecordingWitness.

Import Binary64 Demo DemoHttp.

Lemma recording_without_encoder_witness :
  recording whisper_only [("speech", "es"); ("noise", "es"); ("speech", "auto")]%string
            (initial_state, mkPage "x " (Some "B"%string)) =
  (initial_state, mkPage "x hola mundo hola mundo " (Some "B"%string)).
Proof.
  etransitivity.
  - apply (recording_without_encoder (NP := numpy 2) (CO := collaborators)
             (J := plain_trim) whisper_only
             [("speech", "es"); ("noise", "es"); ("speech", "auto")]%string
             initial_state (mkPage "x " (Some "B"%string))).
    reflexivity.
  - vm_compute. reflexivity.
Defined.

Example recording_with_encoder :
  recording both_models [("speech", "es"); ("noise", "es"); ("speech", "auto")]%string
            (initial_state, empty_page) =
  (mkState [("A"%string, [E1; E1])] "A",
   mkPage (String (ascii_of_nat 10) "[A]: hola mundo hola mundo ") (Some "A"%string)).
Proof. vm_compute. reflexivity. Qed.

End RecordingWitness.
